(** * composer: metric accumulators and the DropBlock layer

    A shallow embedding of [composer/models/nlp_metrics.py] (the classes
    [MaskedAccuracy], [CrossEntropyLoss], [LanguageCrossEntropyLoss],
    [Perplexity], [BinaryF1Score]) and of
    [composer/algorithms/dropblock/dropblock_layers.py] ([DropBlock]).

    Python objects live in a store indexed by references; a method is a
    computation over the pair of its receiver's attributes and the store,
    which either returns or raises and in both cases leaves a final state
    behind (what was mutated before a [raise] stays mutated). *)

From Stdlib Require Import ZArith List Bool Lia QArith Qcanon Qabs Qround Ascii.
From stdpp Require Import base option list gmap strings pretty.

Local Open Scope Z_scope.

(** ** Exceptions and results *)

(** The exceptions the modelled code can raise.  [UnsupportedOutput] is the
    plain [Exception("Type ... for the output is unsupported.")] of
    [LanguageCrossEntropyLoss.update]; the others are the Python built-ins
    of the same name ([RuntimeError], [IndexError], [ValueError],
    [TypeError] and [OverflowError] come out of torch calls). *)
Inductive exn : Type :=
  | AssertionError
  | KeyError (key : string)
  | UnsupportedOutput
  | TypeError
  | AttributeError
  | RuntimeError
  | IndexError
  | ValueError
  | OverflowError
  | ReferenceError.

Inductive result (A : Type) : Type :=
  | Ok (a : A)
  | Raise (e : exn).
Arguments Ok {A} a.
Arguments Raise {A} e.

Definition is_ok {A} (r : result A) : bool :=
  match r with Ok _ => true | Raise _ => false end.

Definition result_map {A B} (f : A -> B) (r : result A) : result B :=
  match r with Ok a => Ok (f a) | Raise e => Raise e end.

Definition result_bind {A B} (r : result A) (f : A -> result B) : result B :=
  match r with Ok a => f a | Raise e => Raise e end.

(** ** Machine integers: the accumulators are int64 tensors *)

Definition wrap64 (z : Z) : Z := (z + 2 ^ 63) mod 2 ^ 64 - 2 ^ 63.

Definition add64 (a b : Z) : Z := wrap64 (a + b).

(** A Python int that fits an int64: torch converts an int operand or
    argument to one, and refuses an int outside the range. *)
Definition in_int64 (z : Z) : bool := (- 2 ^ 63 <=? z) && (z <? 2 ^ 63).

(** ** Floating-point scalars

    The float32 arithmetic of torch is kept abstract: the code only adds,
    divides, exponentiates, compares and converts. *)
Class FloatOps (F : Type) : Type := {
  fzero : F;                    (* torch.tensor(0.) *)
  fadd : F -> F -> F;           (* a + b *)
  fdiv : F -> F -> F;           (* a / b, 0/0 is a value (NaN), nothing raises *)
  fexp : F -> F;                (* torch.exp *)
  of_int : Z -> F;              (* Tensor.float() and int -> float promotion *)
  fltb : F -> F -> bool;        (* a < b *)
  feqb : F -> F -> bool;        (* a == b *)
  ftruthy : F -> bool;          (* bool(x) of a Python float: x != 0.0 *)
  fis_nan : F -> bool           (* torch.isnan *)
}.

(** ** Tensors: a shape and the row-major list of elements *)

Record tensor (A : Type) : Type := Tensor { shape : list nat; data : list A }.
Arguments Tensor {A} shape data.
Arguments shape {A} t.
Arguments data {A} t.

Definition numel_of (s : list nat) : nat := fold_right Nat.mul 1%nat s.

Definition well_shaped {A} (t : tensor A) : Prop :=
  length (data t) = numel_of (shape t).

Definition shape_eqb (s1 s2 : list nat) : bool := bool_decide (s1 = s2).

(** [rows k n l]: the first [k] consecutive blocks of [n] elements of [l]. *)
Fixpoint rows {A} (k n : nat) (l : list A) : list (list A) :=
  match k with
  | O => []
  | S k' => take n l :: rows k' n (drop n l)
  end.

(** Count of [true] in a boolean tensor, as [Tensor.sum()] gives it. *)
Definition count_true (bs : list bool) : Z :=
  Z.of_nat (length (filter (fun b => b = true) bs)).

(** [t[mask]] with a boolean mask of the same shape: the selected elements
    as a 1-d tensor. *)
Fixpoint select_data {A} (xs : list A) (ms : list bool) : list A :=
  match xs, ms with
  | x :: xs', m :: ms' => if m then x :: select_data xs' ms' else select_data xs' ms'
  | _, _ => []
  end.

Definition masked_select {A} (t : tensor A) (mask : tensor bool) : tensor A :=
  let d := select_data (data t) (data mask) in
  Tensor [length d] d.

(** [torch.sum] of a boolean tensor and [mask.sum()]: an int64 scalar. *)
Definition torch_sum (t : tensor bool) : Z := count_true (data t).

(** [t.view(-1)]: always possible for the contiguous tensors modelled here. *)
Definition view_flat {A} (t : tensor A) : tensor A :=
  Tensor [length (data t)] (data t).

(** [t.view(-1, n)]: torch raises a RuntimeError unless [n] divides the
    number of elements (and for [n = 0] unless there are none, where the
    [-1] is ambiguous). *)
Definition view_rows {A} (n : nat) (t : tensor A) : result (tensor A) :=
  match n with
  | O => Raise RuntimeError
  | S _ =>
      if (length (data t) mod n =? 0)%nat
      then Ok (Tensor [(length (data t) / n)%nat; n] (data t))
      else Raise RuntimeError
  end.

(** ** Elements of either dtype

    A comparison between an int64 and a float32 operand promotes the
    integer to float, as torch does. *)
Inductive scalar (F : Type) : Type :=
  | IntV (z : Z)
  | FloatV (x : F).
Arguments IntV {F} z.
Arguments FloatV {F} x.

Section Comparisons.
Context {F : Type} `{FloatOps F}.

Definition scalar_eqb (a b : scalar F) : bool :=
  match a, b with
  | IntV x, IntV y => x =? y
  | IntV x, FloatV y => feqb (of_int x) y
  | FloatV x, IntV y => feqb x (of_int y)
  | FloatV x, FloatV y => feqb x y
  end.

(** An int64 tensor and a float tensor as tensors of scalars. *)
Definition longs (t : tensor Z) : tensor (scalar F) :=
  Tensor (shape t) (map IntV (data t)).

Definition floats (t : tensor F) : tensor (scalar F) :=
  Tensor (shape t) (map FloatV (data t)).

(** The boolean tensor that [t != v] gives once [v] is an int64 scalar:
    the positions whose element differs from [v]. *)
Definition ne_mask (t : tensor (scalar F)) (v : Z) : tensor bool :=
  Tensor (shape t) (map (fun x => negb (scalar_eqb x (IntV v))) (data t)).

(** [t != v] for a tensor and a Python int: torch converts [v] to an int64
    scalar first and raises an OverflowError when it does not fit. *)
Definition tensor_ne (t : tensor (scalar F)) (v : Z) : result (tensor bool) :=
  if in_int64 v then Ok (ne_mask t v) else Raise OverflowError.

(** [a == b] for two tensors of the same shape: elementwise. *)
Fixpoint zip_eqb (xs ys : list (scalar F)) : list bool :=
  match xs, ys with
  | x :: xs', y :: ys' => scalar_eqb x y :: zip_eqb xs' ys'
  | _, _ => []
  end.

Definition tensor_eq (a b : tensor (scalar F)) : tensor bool :=
  Tensor (shape a) (zip_eqb (data a) (data b)).
End Comparisons.

Section Argmax.
Context {A : Type} (ltb : A -> A -> bool).

(** Index of the first maximal element, scanning left to right. *)
Fixpoint argmax_from (best : A) (besti i : Z) (xs : list A) : Z :=
  match xs with
  | [] => besti
  | x :: xs' =>
      if ltb best x then argmax_from x i (i + 1) xs'
      else argmax_from best besti (i + 1) xs'
  end.

Definition argmax_list (xs : list A) : Z :=
  match xs with
  | [] => 0
  | x :: xs' => argmax_from x 0 1 xs'
  end.

(** [torch.argmax(t, dim=-1)]: the last axis is reduced away.  A 0-d
    tensor gives index 0; an empty last axis is an IndexError. *)
Definition torch_argmax (t : tensor A) : result (tensor Z) :=
  match rev (shape t) with
  | [] => Ok (Tensor [] [0])
  | n :: lead =>
      match n with
      | O => Raise IndexError
      | S _ =>
          let s := rev lead in
          Ok (Tensor s (map argmax_list (rows (numel_of s) n (data t))))
      end
  end.
End Argmax.

(** ** Python objects and the store *)

(** The objects a metric is handed: float tensors (logits, losses), int64
    tensors (class indices), mappings from keys to float tensors (a model
    output such as [{'loss': ..., 'logits': ...}]) and [None], which stands
    for every object that is neither a tensor nor a mapping.  torch's
    default random generator is an object of the store as well: a function
    that draws random numbers reads and advances it. *)
Inductive pyobj (F : Type) : Type :=
  | PFloat (t : tensor F)
  | PLong (t : tensor Z)
  | PMapping (m : gmap string (tensor F))
  | PGenerator (state : Z)
  | PNone.
Arguments PFloat {F} t.
Arguments PLong {F} t.
Arguments PMapping {F} m.
Arguments PGenerator {F} state.
Arguments PNone {F}.

Definition isinstance_Tensor {F} (o : pyobj F) : bool :=
  match o with PFloat _ | PLong _ => true | _ => false end.

Definition isinstance_Mapping {F} (o : pyobj F) : bool :=
  match o with PMapping _ => true | _ => false end.

Abbreviation loc := nat.

(** A method runs on its receiver's attributes [self] and on the store
    [mem] of the objects its arguments refer to. *)
Record world (F S : Type) : Type := World { self : S; mem : gmap loc (pyobj F) }.
Arguments World {F S} self mem.
Arguments self {F S} w.
Arguments mem {F S} w.

Definition M (F S A : Type) : Type := world F S -> result A * world F S.

Section Monad.
Context {F S : Type}.

Definition ret {A} (a : A) : M F S A := fun w => (Ok a, w).

Definition raise {A} (e : exn) : M F S A := fun w => (Raise e, w).

Definition bind {A B} (c : M F S A) (k : A -> M F S B) : M F S B :=
  fun w =>
    match c w with
    | (Ok a, w') => k a w'
    | (Raise e, w') => (Raise e, w')
    end.

Definition lift {A} (r : result A) : M F S A := fun w => (r, w).

(** [self.f] *)
Definition getattr {A} (f : S -> A) : M F S A := fun w => (Ok (f (self w)), w).

(** [self.f = v], as an update of the attribute record *)
Definition setattr (upd : S -> S) : M F S unit :=
  fun w => (Ok tt, World (upd (self w)) (mem w)).

(** Reading through a reference.  Python has no dangling references; a
    reference outside the store is reported as [ReferenceError] so that
    the model is total. *)
Definition deref (l : loc) : M F S (pyobj F) :=
  fun w =>
    match mem w !! l with
    | Some o => (Ok o, w)
    | None => (Raise ReferenceError, w)
    end.

(** [assert b] *)
Definition assert_ (b : bool) : M F S unit :=
  if b then ret tt else raise AssertionError.
End Monad.

Declare Scope py_scope.
Delimit Scope py_scope with py.
Notation "x <- c ;; k" := (bind c (fun x => k))
  (at level 100, c at next level, right associativity) : py_scope.
Notation "c ;; k" := (bind c (fun _ => k))
  (at level 100, right associativity) : py_scope.

(** The state left behind by a call, and its outcome. *)
Definition exec {F S A} (c : M F S A) (w : world F S) : world F S := snd (c w).
Definition outcome {F S A} (c : M F S A) (w : world F S) : result A := fst (c w).

(** ** torchmetrics' [add_state]: the reduction declared for a field *)

Inductive reduce_fx : Type := Sum | Cat.

#[global] Instance reduce_fx_eq_dec : EqDecision reduce_fx.
Proof. solve_decision. Defined.

(** ** Functions the metrics call but do not define

    [soft_cross_entropy] is [composer.models.loss.soft_cross_entropy], whose
    source is not part of the modelled files; [f1_score] is scikit-learn's;
    [nll] is the per-example negative log-likelihood inside torch's
    cross-entropy and [cross_entropy_unset] is what torch's cross-entropy
    does when its [ignore_index] is [None].  They receive values, not
    references: they are assumed not to write to their arguments. *)
Class Externals (F : Type) : Type := {
  nll : list F -> Z -> F;
  cross_entropy_unset : tensor F -> tensor Z -> result F;
  soft_cross_entropy : pyobj F -> pyobj F -> result (tensor F);
  (* torch.argmax(self.predictions, dim=1).cpu() on the accumulated state *)
  argmax_dim1 : list (pyobj F) -> result (tensor Z);
  (* self.labels.cpu() on the accumulated state *)
  labels_cpu : list (pyobj F) -> result (tensor Z);
  (* float(f1_score(y_pred=..., y_true=...)) *)
  f1_score : tensor Z -> tensor Z -> result F
}.

(** ** torch.nn.CrossEntropyLoss(ignore_index=i, reduction="sum")

    Following torch's documentation: the input is [N] rows of [C] class
    scores, the target [N] class indices; a target equal to [ignore_index]
    contributes nothing, any other target must lie in [0, C), and the
    per-example losses are summed.  [ignore_index] is an int64 argument of
    the call: a Python int outside the range is refused before the tensors
    are looked at. *)
Section TorchCrossEntropy.
Context {F : Type} `{FloatOps F} `{Externals F}.

Fixpoint ce_rows (ign : Z) (C : nat) (rs : list (list F)) (ts : list Z)
    (acc : F) : result F :=
  match rs, ts with
  | r :: rs', t :: ts' =>
      if t =? ign then ce_rows ign C rs' ts' acc
      else if (0 <=? t) && (t <? Z.of_nat C)
           then ce_rows ign C rs' ts' (fadd acc (nll r t))
           else Raise IndexError
  | _, _ => Ok acc
  end.

(** The per-example losses that enter the sum: those of the rows whose
    target is not [ign]. *)
Fixpoint kept_losses (ign : Z) (rs : list (list F)) (ts : list Z) : list F :=
  match rs, ts with
  | r :: rs', t :: ts' =>
      if t =? ign then kept_losses ign rs' ts'
      else nll r t :: kept_losses ign rs' ts'
  | _, _ => []
  end.

Definition cross_entropy_sum (ign : Z) (input : tensor F) (target : tensor Z)
    : result F :=
  if in_int64 ign then
    match shape input with
    | [N; C] =>
        if (N =? length (data target))%nat
        then ce_rows ign C (rows N C (data input)) (data target) fzero
        else Raise ValueError
    | _ => Raise RuntimeError
    end
  else Raise OverflowError.
End TorchCrossEntropy.

(** ** class MaskedAccuracy(Metric) *)

Module MaskedAccuracy.

(** The attributes of an instance: the configuration [ignore_index], the
    two int64 accumulators registered with [add_state], and the reduction
    declared for each of them.  The constructor does not look at
    [ignore_index] and has no annotation for it: it is stored as given, a
    Python int of any size or [None]. *)
Record t : Type := Build {
  ignore_index : option Z;
  correct : Z;
  total : Z;
  reductions : gmap string reduce_fx
}.

(** What [target != self.ignore_index] evaluates to: a boolean tensor when
    [ignore_index] is an int, and the Python bool [True] when it is [None]
    (torch does not compare a tensor with [None], and Python falls back to
    the comparison of identities). *)
Inductive mask : Type :=
  | MaskTensor (b : tensor bool)
  | MaskBool (b : bool).

Definition __init__ (ignore_index : option Z) : t :=
  {| ignore_index := ignore_index;
     correct := 0;
     total := 0;
     reductions := {[ "correct" := Sum; "total" := Sum ]} |}.

Section Methods.
Context {F : Type} `{FloatOps F}.
Local Open Scope py_scope.

(** [torch.argmax(preds, dim=-1)] on whatever [preds] refers to. *)
Definition argmax_obj (o : pyobj F) : result (tensor Z) :=
  match o with
  | PFloat p => torch_argmax fltb p
  | PLong p => torch_argmax Z.ltb p
  | PMapping _ | PGenerator _ | PNone => Raise TypeError
  end.

(** [target.shape], [target != ...] and the comparison with the
    predictions need a tensor, of either dtype. *)
Definition target_obj (o : pyobj F) : result (tensor (scalar F)) :=
  match o with
  | PLong t => Ok (longs t)
  | PFloat t => Ok (floats t)
  | PMapping _ | PGenerator _ | PNone => Raise AttributeError
  end.

(** [self.correct += v] and [self.total += v]: in-place int64 addition. *)
Definition iadd_correct (v : Z) : M F t unit :=
  setattr (fun s => {| ignore_index := ignore_index s;
                       correct := add64 (correct s) v;
                       total := total s;
                       reductions := reductions s |}).

Definition iadd_total (v : Z) : M F t unit :=
  setattr (fun s => {| ignore_index := ignore_index s;
                       correct := correct s;
                       total := add64 (total s) v;
                       reductions := reductions s |}).

(** [target != ignore_index] *)
Definition ne_index (target : tensor (scalar F)) (ign : option Z) : result mask :=
  match ign with
  | Some v => result_map MaskTensor (tensor_ne target v)
  | None => Ok (MaskBool true)
  end.

(** [x[mask]]: the selected elements for a boolean tensor; for a Python
    bool the whole tensor under a new leading axis of length one ([True])
    or zero ([False]). *)
Definition index_by {A} (x : tensor A) (mk : mask) : tensor A :=
  match mk with
  | MaskTensor b => masked_select x b
  | MaskBool true => Tensor (1%nat :: shape x) (data x)
  | MaskBool false => Tensor (0%nat :: shape x) []
  end.

(** [mask.sum()]: a Python bool has no such method. *)
Definition mask_sum (mk : mask) : result Z :=
  match mk with
  | MaskTensor b => Ok (torch_sum b)
  | MaskBool _ => Raise AttributeError
  end.

Definition update (preds target : loc) : M F t unit :=
  p <- deref preds ;;
  preds <- lift (argmax_obj p) ;;
  tg <- deref target ;;
  target <- lift (target_obj tg) ;;
  assert_ (shape_eqb (shape preds) (shape target)) ;;
  ign <- getattr ignore_index ;;
  mask <- lift (ne_index target ign) ;;
  let masked_target := index_by target mask in
  let masked_preds := index_by (longs preds) mask in
  iadd_correct (torch_sum (tensor_eq masked_preds masked_target)) ;;
  total <- lift (mask_sum mask) ;;
  iadd_total total.

(** [return self.correct.float() / self.total] *)
Definition compute : M F t F :=
  c <- getattr correct ;;
  n <- getattr total ;;
  ret (fdiv (of_int c) (of_int n)).
End Methods.
End MaskedAccuracy.

(** ** class CrossEntropyLoss(Metric) *)

Module CrossEntropyLoss.

(** The [torch.nn.CrossEntropyLoss] module built by the constructor. *)
Record loss_module : Type := LossModule {
  lm_ignore_index : option Z;
  lm_reduction : string
}.

Record t (F : Type) : Type := Build {
  vocab_size : Z;
  ignore_index : option Z;
  loss_fn : loss_module;
  sum_loss : F;
  total_batches : Z;
  reductions : gmap string reduce_fx
}.
Arguments Build {F}.
Arguments vocab_size {F} _.
Arguments ignore_index {F} _.
Arguments loss_fn {F} _.
Arguments sum_loss {F} _.
Arguments total_batches {F} _.
Arguments reductions {F} _.

Section Methods.
Context {F : Type} `{FloatOps F} `{Externals F}.
Local Open Scope py_scope.

Definition __init__ (vocab_size : Z) (ignore_index : option Z) : t F :=
  {| vocab_size := vocab_size;
     ignore_index := ignore_index;
     loss_fn := LossModule ignore_index "sum";
     sum_loss := fzero;
     total_batches := 0;
     reductions := {[ "sum_loss" := Sum; "total_batches" := Sum ]} |}.

(** [output.view(-1, self.vocab_size)] *)
Definition view_vocab (V : Z) (o : pyobj F) : result (pyobj F) :=
  if V <=? 0 then Raise RuntimeError
  else match o with
       | PFloat x => result_map PFloat (view_rows (Z.to_nat V) x)
       | PLong x => result_map PLong (view_rows (Z.to_nat V) x)
       | PMapping _ | PGenerator _ | PNone => Raise AttributeError
       end.

(** [target.view(-1)] *)
Definition view_target (o : pyobj F) : result (pyobj F) :=
  match o with
  | PFloat x => Ok (PFloat (view_flat x))
  | PLong x => Ok (PLong (view_flat x))
  | PMapping _ | PGenerator _ | PNone => Raise AttributeError
  end.

(** [self.loss_fn(output, target)]: float scores against int64 class
    indices.  A float target is refused, with a ValueError when its length
    is not the number of rows; the other dtype combinations modelled here
    are refused with a RuntimeError. *)
Definition call_loss_fn (lf : loss_module) (output target : pyobj F)
    : result F :=
  match output, target with
  | PFloat o, PLong t =>
      match lm_ignore_index lf with
      | Some i => cross_entropy_sum i o t
      | None => cross_entropy_unset o t
      end
  | PFloat o, PFloat t =>
      match shape o with
      | [N; _] =>
          if (N =? length (data t))%nat then Raise RuntimeError
          else Raise ValueError
      | _ => Raise RuntimeError
      end
  | _, _ => Raise RuntimeError
  end.

(** Truth value of [self.ignore_index] in [if self.ignore_index:]. *)
Definition truthy_index (i : option Z) : bool :=
  match i with
  | Some v => negb (v =? 0)
  | None => false
  end.

Definition iadd_total_batches (v : Z) : M F (t F) unit :=
  setattr (fun s => {| vocab_size := vocab_size s;
                       ignore_index := ignore_index s;
                       loss_fn := loss_fn s;
                       sum_loss := sum_loss s;
                       total_batches := add64 (total_batches s) v;
                       reductions := reductions s |}).

Definition iadd_sum_loss (v : F) : M F (t F) unit :=
  setattr (fun s => {| vocab_size := vocab_size s;
                       ignore_index := ignore_index s;
                       loss_fn := loss_fn s;
                       sum_loss := fadd (sum_loss s) v;
                       total_batches := total_batches s;
                       reductions := reductions s |}).

(** [target.shape[0]] after [target.view(-1)] *)
Definition flat_length (o : pyobj F) : Z :=
  match o with
  | PFloat x => Z.of_nat (length (data x))
  | PLong x => Z.of_nat (length (data x))
  | _ => 0
  end.

(** [(target != self.ignore_index).sum()] *)
Definition masked_count (o : pyobj F) (ign : option Z) : result Z :=
  match o, ign with
  | PLong x, Some i => result_map torch_sum (tensor_ne (longs x) i)
  | _, _ => Raise TypeError
  end.

Definition update (output target : loc) : M F (t F) unit :=
  o <- deref output ;;
  assert_ (isinstance_Tensor o) ;;
  V <- getattr vocab_size ;;
  output <- lift (view_vocab V o) ;;
  tg <- deref target ;;
  target <- lift (view_target tg) ;;
  lf <- getattr loss_fn ;;
  losses <- lift (call_loss_fn lf output target) ;;
  ign <- getattr ignore_index ;;
  total_batches <-
    (if truthy_index ign
     then lift (masked_count target ign)
     else ret (flat_length target)) ;;
  iadd_total_batches total_batches ;;
  iadd_sum_loss losses.

(** [return self.sum_loss / self.total_batches] *)
Definition compute : M F (t F) F :=
  s <- getattr sum_loss ;;
  n <- getattr total_batches ;;
  ret (fdiv s (of_int n)).
End Methods.
End CrossEntropyLoss.

(** ** class LanguageCrossEntropyLoss(Metric) *)

Module LanguageCrossEntropyLoss.

Record t (F : Type) : Type := Build {
  sum_loss : F;
  total_batches : Z;
  reductions : gmap string reduce_fx
}.
Arguments Build {F}.
Arguments sum_loss {F} _.
Arguments total_batches {F} _.
Arguments reductions {F} _.

Section Methods.
Context {F : Type} `{FloatOps F} `{Externals F}.
Local Open Scope py_scope.

Definition __init__ : t F :=
  {| sum_loss := fzero;
     total_batches := 0;
     reductions := {[ "sum_loss" := Sum; "total_batches" := Sum ]} |}.

(** ['k' in output] *)
Definition contains (o : pyobj F) (k : string) : bool :=
  match o with
  | PMapping m => bool_decide (is_Some (m !! k))
  | _ => false
  end.

(** [output['k']] *)
Definition getitem (o : pyobj F) (k : string) : result (pyobj F) :=
  match o with
  | PMapping m =>
      match m !! k with
      | Some v => Ok (PFloat v)
      | None => Raise (KeyError k)
      end
  | _ => Raise TypeError
  end.

(** [self.sum_loss += loss]: the accumulator is a 0-d float tensor, so
    the in-place addition only takes a 0-d operand. *)
Definition iadd_sum_loss (loss : pyobj F) : M F (t F) unit :=
  match loss with
  | PFloat (Tensor [] [x]) =>
      setattr (fun s => {| sum_loss := fadd (sum_loss s) x;
                           total_batches := total_batches s;
                           reductions := reductions s |})
  | PLong (Tensor [] [x]) =>
      setattr (fun s => {| sum_loss := fadd (sum_loss s) (of_int x);
                           total_batches := total_batches s;
                           reductions := reductions s |})
  | PFloat _ | PLong _ => raise RuntimeError
  | _ => raise TypeError
  end.

Definition iadd_total_batches (v : Z) : M F (t F) unit :=
  setattr (fun s => {| sum_loss := sum_loss s;
                       total_batches := add64 (total_batches s) v;
                       reductions := reductions s |}).

Definition update (output target : loc) : M F (t F) unit :=
  o <- deref output ;;
  loss <-
    (if isinstance_Mapping o && contains o "loss"
     then lift (getitem o "loss")
     else
       logits <-
         (if isinstance_Mapping o then lift (getitem o "logits")
          else if isinstance_Tensor o then ret o
          else raise UnsupportedOutput) ;;
       tg <- deref target ;;
       lift (result_map PFloat (soft_cross_entropy logits tg))) ;;
  iadd_sum_loss loss ;;
  iadd_total_batches 1.

(** [return self.sum_loss / self.total_batches] *)
Definition compute : M F (t F) F :=
  s <- getattr sum_loss ;;
  n <- getattr total_batches ;;
  ret (fdiv s (of_int n)).
End Methods.
End LanguageCrossEntropyLoss.

(** ** class Perplexity(LanguageCrossEntropyLoss) *)

Module Perplexity.

(** A subclass without attributes of its own: the constructor and
    [update] are inherited, [compute] is overridden. *)
Abbreviation t := LanguageCrossEntropyLoss.t.

Section Methods.
Context {F : Type} `{FloatOps F} `{Externals F}.
Local Open Scope py_scope.

Definition __init__ : t F := LanguageCrossEntropyLoss.__init__.

Definition update (output target : loc) : M F (t F) unit :=
  LanguageCrossEntropyLoss.update output target.

Definition compute : M F (t F) F :=
  avg_loss <- LanguageCrossEntropyLoss.compute ;;
  ret (fexp avg_loss).
End Methods.
End Perplexity.

(** ** class BinaryF1Score(Metric) *)

Module BinaryF1Score.

(** Both states are Python lists of the objects handed to [update]: the
    lists hold references, not copies. *)
Record t : Type := Build {
  predictions : list loc;
  labels : list loc;
  reductions : gmap string reduce_fx
}.

Definition __init__ : t :=
  {| predictions := [];
     labels := [];
     reductions := {[ "predictions" := Cat; "labels" := Cat ]} |}.

Section Methods.
Context {F : Type} `{FloatOps F} `{Externals F}.
Local Open Scope py_scope.

Definition append_predictions (x : loc) : M F t unit :=
  setattr (fun s => {| predictions := predictions s ++ [x];
                       labels := labels s;
                       reductions := reductions s |}).

Definition append_labels (x : loc) : M F t unit :=
  setattr (fun s => {| predictions := predictions s;
                       labels := labels s ++ [x];
                       reductions := reductions s |}).

Definition update (output target : loc) : M F t unit :=
  append_predictions output ;;
  append_labels target.

(** The objects a list of references refers to. *)
Fixpoint deref_all (ls : list loc) : M F t (list (pyobj F)) :=
  match ls with
  | [] => ret []
  | l :: ls' =>
      o <- deref l ;;
      os <- deref_all ls' ;;
      ret (o :: os)
  end.

Definition compute : M F t F :=
  ps <- getattr predictions ;;
  pobjs <- deref_all ps ;;
  predictions <- lift (argmax_dim1 pobjs) ;;
  ls <- getattr labels ;;
  lobjs <- deref_all ls ;;
  labels <- lift (labels_cpu lobjs) ;;
  lift (f1_score predictions labels).
End Methods.
End BinaryF1Score.

(** ** class DropBlock(nn.Module) *)

Module DropBlock.

(** [training] is the flag every [nn.Module] carries. *)
Record t (F : Type) : Type := Build {
  training : bool;
  drop_prob : F;
  block_size : Z;
  batchwise : bool
}.
Arguments Build {F}.
Arguments training {F} _.
Arguments drop_prob {F} _.
Arguments block_size {F} _.
Arguments batchwise {F} _.

Section Methods.
Context {F : Type} `{FloatOps F}.
Local Open Scope py_scope.

(** [composer.algorithms.dropblock.dropblock.dropblock], whose source is
    not part of the modelled files: some computation that returns a
    reference to a tensor. *)
Variable dropblock : loc -> F -> Z -> bool -> M F (t F) loc.

Definition __init__ (drop_prob : F) (block_size : Z) (batchwise : bool) : t F :=
  {| training := true;
     drop_prob := drop_prob;
     block_size := block_size;
     batchwise := batchwise |}.

Definition forward (x : loc) : M F (t F) loc :=
  tr <- getattr training ;;
  p <- getattr drop_prob ;;
  if negb tr || negb (ftruthy p) then ret x
  else
    bs <- getattr block_size ;;
    bw <- getattr batchwise ;;
    dropblock x p bs bw.
End Methods.
End DropBlock.

(** ** Sequences of calls *)

(** The state after a sequence of [update] calls, one per batch; a call that
    raises leaves whatever it had written and the next call goes on from
    there, as for a caller that catches the exception. *)
Definition run_updates {F S : Type} (update : loc -> loc -> M F S unit)
    (batches : list (loc * loc)) (w : world F S) : world F S :=
  fold_left (fun w b => exec (update b.1 b.2) w) batches w.

(** ** Cross-worker reduction *)

(** Modelled from the spec: the merge of two workers' states, which the
    metric framework (torchmetrics, not part of this repository) performs
    before [compute] in a multi-worker run.  Each accumulator field is
    combined by the rule declared for it: [Sum] adds counters, [Cat]
    concatenates lists; a rule that does not apply to the field's data
    yields no merged state. *)
Definition reduce_counter (fx : option reduce_fx) (a b : Z) : option Z :=
  match fx with
  | Some Sum => Some (add64 a b)
  | _ => None
  end.

Definition reduce_float {F} `{FloatOps F} (fx : option reduce_fx) (a b : F)
    : option F :=
  match fx with
  | Some Sum => Some (fadd a b)
  | _ => None
  end.

Definition reduce_list (fx : option reduce_fx) (a b : list loc)
    : option (list loc) :=
  match fx with
  | Some Cat => Some (a ++ b)
  | _ => None
  end.

Definition merge_MaskedAccuracy (s1 s2 : MaskedAccuracy.t)
    : option MaskedAccuracy.t :=
  let r := MaskedAccuracy.reductions s1 in
  c ← reduce_counter (r !! "correct")
        (MaskedAccuracy.correct s1) (MaskedAccuracy.correct s2);
  n ← reduce_counter (r !! "total")
        (MaskedAccuracy.total s1) (MaskedAccuracy.total s2);
  Some (MaskedAccuracy.Build (MaskedAccuracy.ignore_index s1) c n r).

Definition merge_CrossEntropyLoss {F} `{FloatOps F}
    (s1 s2 : CrossEntropyLoss.t F) : option (CrossEntropyLoss.t F) :=
  let r := CrossEntropyLoss.reductions s1 in
  l ← reduce_float (r !! "sum_loss")
        (CrossEntropyLoss.sum_loss s1) (CrossEntropyLoss.sum_loss s2);
  n ← reduce_counter (r !! "total_batches")
        (CrossEntropyLoss.total_batches s1) (CrossEntropyLoss.total_batches s2);
  Some (CrossEntropyLoss.Build (CrossEntropyLoss.vocab_size s1)
          (CrossEntropyLoss.ignore_index s1) (CrossEntropyLoss.loss_fn s1) l n r).

Definition merge_LanguageCrossEntropyLoss {F} `{FloatOps F}
    (s1 s2 : LanguageCrossEntropyLoss.t F)
    : option (LanguageCrossEntropyLoss.t F) :=
  let r := LanguageCrossEntropyLoss.reductions s1 in
  l ← reduce_float (r !! "sum_loss")
        (LanguageCrossEntropyLoss.sum_loss s1)
        (LanguageCrossEntropyLoss.sum_loss s2);
  n ← reduce_counter (r !! "total_batches")
        (LanguageCrossEntropyLoss.total_batches s1)
        (LanguageCrossEntropyLoss.total_batches s2);
  Some (LanguageCrossEntropyLoss.Build l n r).

Definition merge_BinaryF1Score (s1 s2 : BinaryF1Score.t)
    : option BinaryF1Score.t :=
  let r := BinaryF1Score.reductions s1 in
  p ← reduce_list (r !! "predictions")
        (BinaryF1Score.predictions s1) (BinaryF1Score.predictions s2);
  l ← reduce_list (r !! "labels")
        (BinaryF1Score.labels s1) (BinaryF1Score.labels s2);
  Some (BinaryF1Score.Build p l r).

(** ** An instance to run the model on

    Exact rational arithmetic in place of float32; [exp] is cut to its
    Taylor polynomial of degree three. *)
Module Rational.

Definition of_Z (z : Z) : Qc := Q2Qc (inject_Z z).

Definition exp3 (x : Qc) : Qc :=
  (1 + x + x * x / of_Z 2 + x * x * x / of_Z 6)%Qc.

Definition ltb (a b : Qc) : bool :=
  match (a ?= b)%Qc with Lt => true | _ => false end.

Definition eqb (a b : Qc) : bool := Qeq_bool a b.

#[global] Instance float_ops : FloatOps Qc := {|
  fzero := 0%Qc;
  fadd := Qcplus;
  fdiv := Qcdiv;
  fexp := exp3;
  of_int := of_Z;
  fltb := ltb;
  feqb := eqb;
  ftruthy := fun x => negb (eqb x 0%Qc);
  fis_nan := fun _ => false
|}.

(** Stand-ins for the external functions: the score of the target class,
    negated, as the per-example loss; the sum of the logits as the soft
    cross-entropy; [torch.argmax] and [.cpu()] refuse a Python list, as
    they do on the state of a single process. *)
Definition neg_score (row : list Qc) (c : Z) : Qc :=
  (- nth (Z.to_nat c) row 0)%Qc.

Definition total_score (o t : pyobj Qc) : result (tensor Qc) :=
  match o, t with
  | PFloat x, PLong _ => Ok (Tensor [] [fold_left Qcplus (data x) 0%Qc])
  | _, _ => Raise TypeError
  end.

#[global] Instance externals : Externals Qc := {|
  nll := neg_score;
  cross_entropy_unset := fun _ _ => Raise TypeError;
  soft_cross_entropy := total_score;
  argmax_dim1 := fun _ => Raise TypeError;
  labels_cpu := fun _ => Raise AttributeError;
  f1_score := fun _ _ => Ok 1%Qc
|}.

Definition row (zs : list Z) : list Qc := map of_Z zs.
End Rational.

(** ** An instance with the special values of IEEE arithmetic

    The rationals extended by the two infinities and NaN, with the IEEE
    rules for them; rounding and the sign of zero are left out.  It shows
    what the divisions of the [compute] methods give on a zero
    denominator. *)
Module Extended.

Inductive t : Type :=
  | Finite (q : Qc)
  | Infinity (negative : bool)
  | NaN.

Definition is_negative (q : Qc) : bool := Rational.ltb q 0%Qc.

Definition add (a b : t) : t :=
  match a, b with
  | NaN, _ => NaN
  | _, NaN => NaN
  | Finite x, Finite y => Finite (x + y)%Qc
  | Infinity s, Finite _ => Infinity s
  | Finite _, Infinity s => Infinity s
  | Infinity s, Infinity s' => if Bool.eqb s s' then Infinity s else NaN
  end.

Definition div (a b : t) : t :=
  match a, b with
  | NaN, _ => NaN
  | _, NaN => NaN
  | Finite x, Finite y =>
      if Rational.eqb y 0%Qc
      then (if Rational.eqb x 0%Qc then NaN else Infinity (is_negative x))
      else Finite (x / y)%Qc
  | Finite _, Infinity _ => Finite 0%Qc
  | Infinity s, Finite y => Infinity (xorb s (is_negative y))
  | Infinity _, Infinity _ => NaN
  end.

Definition exp (a : t) : t :=
  match a with
  | Finite x => Finite (Rational.exp3 x)
  | Infinity false => Infinity false
  | Infinity true => Finite 0%Qc
  | NaN => NaN
  end.

Definition ltb (a b : t) : bool :=
  match a, b with
  | NaN, _ => false
  | _, NaN => false
  | Finite x, Finite y => Rational.ltb x y
  | Finite _, Infinity s => negb s
  | Infinity s, Finite _ => s
  | Infinity s, Infinity s' => s && negb s'
  end.

Definition eqb (a b : t) : bool :=
  match a, b with
  | Finite x, Finite y => Rational.eqb x y
  | Infinity s, Infinity s' => Bool.eqb s s'
  | _, _ => false
  end.

Definition truthy (a : t) : bool :=
  match a with
  | Finite x => negb (Rational.eqb x 0%Qc)
  | Infinity _ => true
  | NaN => true
  end.

Definition is_nan (a : t) : bool :=
  match a with NaN => true | _ => false end.

#[global] Instance float_ops : FloatOps t := {|
  fzero := Finite 0%Qc;
  fadd := add;
  fdiv := div;
  fexp := exp;
  of_int := fun z => Finite (Rational.of_Z z);
  fltb := ltb;
  feqb := eqb;
  ftruthy := truthy;
  fis_nan := is_nan
|}.
End Extended.

(** ** An instance that rounds as float32 does

    Every finite float32 is a rational; the result of an operation is the
    exact result rounded to 24 significant bits, ties to even.  Overflow,
    underflow and the special values are left out, and [exp] is again cut
    to its Taylor polynomial.  Values are kept as reduced fractions. *)
Module Binary32.

Record t : Type := Value { rational : Q }.

Local Open Scope Q_scope.

(** The exponent [e] with [2^e <= a < 2^(e+1)], for [a > 0]. *)
Definition floor_log2 (a : Q) : Z :=
  let k := (Z.log2 (Qnum a) - Z.log2 (Z.pos (Qden a)))%Z in
  if Qle_bool (2 ^ k) a then k else (k - 1)%Z.

Definition round (q : Q) : Q :=
  if Qeq_bool q 0 then 0
  else
    let a := Qabs q in
    let ulp := 2 ^ (floor_log2 a - 23) in
    let s := a / ulp in
    let n := Qfloor s in
    let n' := match s - inject_Z n ?= 1 # 2 with
              | Lt => n
              | Gt => (n + 1)%Z
              | Eq => if Z.even n then n else (n + 1)%Z
              end in
    (if Qle_bool 0 q then 1 else - (1)) * (inject_Z n' * ulp).

Definition rounded (q : Q) : t := Value (Qred (round q)).

Definition add (a b : t) : t := rounded (rational a + rational b).

Definition div (a b : t) : t := rounded (rational a / rational b).

Definition exp (a : t) : t :=
  let x := rational a in
  rounded (1 + x + x * x / 2 + x * x * x / 6).

Definition of_Z (z : Z) : t := rounded (inject_Z z).

#[global] Instance float_ops : FloatOps t := {|
  fzero := Value 0;
  fadd := add;
  fdiv := div;
  fexp := exp;
  of_int := of_Z;
  fltb := fun a b => negb (Qle_bool (rational b) (rational a));
  feqb := fun a b => Qeq_bool (rational a) (rational b);
  ftruthy := fun a => negb (Qeq_bool (rational a) 0);
  fis_nan := fun _ => false
|}.

(** Stand-ins for the external functions: they refuse every call; the
    batches below carry their loss. *)
#[global] Instance externals : Externals t := {|
  nll := fun _ _ => Value 0;
  cross_entropy_unset := fun _ _ => Raise TypeError;
  soft_cross_entropy := fun _ _ => Raise TypeError;
  argmax_dim1 := fun _ => Raise TypeError;
  labels_cpu := fun _ => Raise AttributeError;
  f1_score := fun _ _ => Raise TypeError
|}.

(** Three model outputs with a ready loss, 2^25, 0 and 2, all of them
    float32 values, and a target. *)
Definition loss (z : Z) : pyobj t :=
  PMapping {[ "loss" := Tensor [] [Value (inject_Z z)] ]}.

Definition store : gmap loc (pyobj t) :=
  {[ 1%nat := loss (2 ^ 25);
     2%nat := loss 0;
     3%nat := loss 2;
     4%nat := PLong (Tensor [2%nat] [0; 1]%Z) ]}.
End Binary32.

(** ** Observations used in the statements below *)

(** [preserves f c]: running [c] does not change the observation [f] of the
    world, whether [c] returns or raises. *)
Definition preserves {F S A B} (f : world F S -> B) (c : M F S A) : Prop :=
  forall w, f (exec c w) = f w.

(** [store_only m c]: on the store [m], the computation [c] neither reads
    nor writes the receiver's attributes, and does not write the store. *)
Definition store_only {F S A} (m : gmap loc (pyobj F)) (c : M F S A) : Prop :=
  exists r, forall s, c (World s m) = (r, World s m).

(** [additive r m c]: on the accumulators of a cross-entropy metric, [c]
    either writes nothing or adds amounts that do not depend on what is
    accumulated. *)
Definition additive {F A} `{FloatOps F} (r : gmap string reduce_fx)
    (m : gmap loc (pyobj F)) (c : M F (LanguageCrossEntropyLoss.t F) A) : Prop :=
  (forall l n,
     exec c (World (LanguageCrossEntropyLoss.Build l n r) m)
     = World (LanguageCrossEntropyLoss.Build l n r) m) \/
  (exists dl dn, forall l n,
     exec c (World (LanguageCrossEntropyLoss.Build l n r) m)
     = World (LanguageCrossEntropyLoss.Build (fadd l dl) (add64 n dn) r) m).

(** The state of a [LanguageCrossEntropyLoss] after one more loss [x]. *)
Definition accumulated {F} `{FloatOps F} (s : LanguageCrossEntropyLoss.t F) (x : F)
    : LanguageCrossEntropyLoss.t F :=
  LanguageCrossEntropyLoss.Build
    (fadd (LanguageCrossEntropyLoss.sum_loss s) x)
    (add64 (LanguageCrossEntropyLoss.total_batches s) 1)
    (LanguageCrossEntropyLoss.reductions s).

(** ** Concrete batches *)

Module Examples.

(** Four rows of four class scores whose argmax is [[1, 0, 2, 3]], and
    the target [[1, ignore, 2, 2]] with [ignore = -100]. *)
Definition logits : tensor Qc :=
  Tensor [4%nat; 4%nat]
    (Rational.row [0; 9; 0; 0;  9; 0; 0; 0;  0; 0; 9; 0;  0; 0; 0; 9]).

Definition target : tensor Z := Tensor [4%nat] [1; -100; 2; 2].

(** Two rows of two class scores with the targets [[0, 1]], and a target
    of three entries that fits neither batch. *)
Definition scores : tensor Qc := Tensor [2%nat; 2%nat] (Rational.row [3; 1; 2; 5]).

Definition classes : tensor Z := Tensor [2%nat] [0; 1].

Definition long_target : tensor Z := Tensor [3%nat] [1; 0; 1].

Definition loss2 : tensor Qc := Tensor [] [Rational.of_Z 2].

Definition store : gmap loc (pyobj Qc) :=
  {[ 1%nat := PFloat logits;
     2%nat := PLong target;
     3%nat := PFloat scores;
     4%nat := PLong classes;
     5%nat := PLong long_target;
     6%nat := PMapping {[ "logits" := scores ]};
     7%nat := PMapping {[ "loss" := loss2; "logits" := scores ]};
     8%nat := PNone ]}.

(** A stand-in for [dropblock]: it fails, so that a call to it cannot be
    mistaken for the identity. *)
Definition dropblock (x : loc) (p : Qc) (block_size : Z) (batchwise : bool)
    : M Qc (DropBlock.t Qc) loc :=
  raise RuntimeError.

Definition tenth : Qc := Q2Qc (1 # 10).
End Examples.

(** ** Counting positions of a batch *)

(** Number of elements of [l] that satisfy [f]. *)
Definition count {A} (f : A -> bool) (l : list A) : Z :=
  Z.of_nat (length (List.filter f l)).

(** A target element that [target != ignore_index] keeps, and a pair of a
    predicted class and a kept target that agree. *)
Definition kept {F} `{FloatOps F} (ign : Z) (t : scalar F) : bool :=
  negb (scalar_eqb t (IntV ign)).

Definition hit {F} `{FloatOps F} (ign : Z) (pt : Z * scalar F) : bool :=
  kept ign pt.2 && scalar_eqb (IntV pt.1) pt.2.

(** Number of elements of the tensor an object holds; 0 for other objects. *)
Definition size_of {F} (o : pyobj F) : nat :=
  match o with
  | PFloat t => length (data t)
  | PLong t => length (data t)
  | _ => 0%nat
  end.

(** [atomic c]: when [c] raises, it has written nothing. *)
Definition atomic {F S A} (c : M F S A) : Prop :=
  forall w e, outcome c w = Raise e -> exec c w = w.

(** [counts_calls r m c]: on the accumulators of a
    [LanguageCrossEntropyLoss], [c] either raises and writes nothing, or
    returns having added one loss and one to [total_batches]; which of the
    two, and the loss, do not depend on what is accumulated. *)
Definition counts_calls {F A} `{FloatOps F} (r : gmap string reduce_fx)
    (m : gmap loc (pyobj F)) (c : M F (LanguageCrossEntropyLoss.t F) A) : Prop :=
  (exists e, forall l n,
     c (World (LanguageCrossEntropyLoss.Build l n r) m)
     = (Raise e, World (LanguageCrossEntropyLoss.Build l n r) m)) \/
  (exists a dl, forall l n,
     c (World (LanguageCrossEntropyLoss.Build l n r) m)
     = (Ok a, World (LanguageCrossEntropyLoss.Build (fadd l dl) (add64 n 1) r) m)).

(** ** More concrete batches *)

Module MoreExamples.

(** A model output without ['loss'] and without ['logits'], a loss that is
    not 0-d, and a target in which every entry is the ignored index. *)
Definition hidden : tensor Qc := Tensor [1%nat] [Rational.of_Z 4].

Definition all_ignored : tensor Z := Tensor [4%nat] [-100; -100; -100; -100].

Definition store : gmap loc (pyobj Qc) :=
  {[ 1%nat := PFloat Examples.logits;
     2%nat := PLong Examples.target;
     3%nat := PFloat Examples.scores;
     4%nat := PLong Examples.classes;
     5%nat := PMapping {[ "hidden_states" := hidden ]};
     6%nat := PMapping {[ "loss" := hidden ]};
     7%nat := PMapping {[ "loss" := Examples.loss2 ]};
     8%nat := PLong all_ignored ]}.
End MoreExamples.

(** ** examples/run_composer_profiler.py: the warning format *)

Definition newline : string := String "010"%char EmptyString.

(** Number of occurrences of a character in a string. *)
Fixpoint count_char (c : ascii) (s : string) : nat :=
  match s with
  | EmptyString => 0%nat
  | String c' s' => ((if Ascii.eqb c c' then 1 else 0) + count_char c s')%nat
  end.

(** [warning_on_one_line(message, category, filename, lineno, file, line)]:
    [category] is given by its [__name__]; [file] and [line] are accepted
    and not used. *)
Definition warning_on_one_line (message category_name filename : string)
    (lineno : Z) (file line : option string) : string :=
  category_name +:+ ": " +:+ message +:+ " (source: " +:+ filename +:+ ":"
    +:+ pretty lineno +:+ ")" +:+ newline.

(** * Properties *)

(** ** The model on the concrete batches *)

Example argmax_of_logits :
  MaskedAccuracy.argmax_obj (PFloat Examples.logits)
  = Ok (Tensor [4%nat] [1; 0; 2; 3]).
Proof. reflexivity. Qed.

Example masked_accuracy_counts :
  let w := exec (MaskedAccuracy.update 1%nat 2%nat)
             (World (MaskedAccuracy.__init__ (Some (-100))) Examples.store) in
  (MaskedAccuracy.correct (self w), MaskedAccuracy.total (self w)) = (2, 3).
Proof. reflexivity. Qed.

Example cross_entropy_ignore_0_counts_both_rows :
  let w := exec (CrossEntropyLoss.update 3%nat 4%nat)
             (World (CrossEntropyLoss.__init__ 2 (Some 0)) Examples.store) in
  CrossEntropyLoss.total_batches (self w) = 2.
Proof. reflexivity. Qed.

Example cross_entropy_ignore_1_counts_one_row :
  let w := exec (CrossEntropyLoss.update 3%nat 4%nat)
             (World (CrossEntropyLoss.__init__ 2 (Some 1)) Examples.store) in
  CrossEntropyLoss.total_batches (self w) = 1.
Proof. reflexivity. Qed.

Example cross_entropy_vocab_must_divide :
  outcome (CrossEntropyLoss.update 1%nat 2%nat)
    (World (CrossEntropyLoss.__init__ 3 (Some (-100))) Examples.store)
  = Raise RuntimeError.
Proof. reflexivity. Qed.

Example language_loss_from_logits_mapping :
  outcome (LanguageCrossEntropyLoss.update 6%nat 4%nat)
    (World LanguageCrossEntropyLoss.__init__ Examples.store)
  = Ok tt.
Proof. reflexivity. Qed.

Example language_loss_rejects_none :
  outcome (LanguageCrossEntropyLoss.update 8%nat 4%nat)
    (World LanguageCrossEntropyLoss.__init__ Examples.store)
  = Raise UnsupportedOutput.
Proof. reflexivity. Qed.

Example int64_overflow_wraps : add64 (2 ^ 63 - 1) 1 = - 2 ^ 63.
Proof. reflexivity. Qed.

(** ** What a computation leaves untouched *)

Create HintDb frame discriminated.

Section Frame.
Context {F S B : Type} (f : world F S -> B).

Lemma preserves_ret {A} (a : A) : preserves f (ret a).
Proof. intros w. reflexivity. Qed.

Lemma preserves_raise {A} e : preserves f (raise (A:=A) e).
Proof. intros w. reflexivity. Qed.

Lemma preserves_lift {A} (r : result A) : preserves f (lift r).
Proof. intros w. reflexivity. Qed.

Lemma preserves_getattr {A} (g : S -> A) : preserves f (getattr g).
Proof. intros w. reflexivity. Qed.

Lemma preserves_deref l : preserves f (deref l).
Proof. intros w. unfold exec, deref. by destruct (mem w !! l). Qed.

Lemma preserves_assert b : preserves f (assert_ b).
Proof. intros w. by destruct b. Qed.

Lemma preserves_bind {A A'} (c : M F S A) (k : A -> M F S A') :
  preserves f c -> (forall a, preserves f (k a)) -> preserves f (bind c k).
Proof.
  intros Hc Hk w. unfold exec, bind.
  specialize (Hc w). unfold exec in Hc.
  destruct (c w) as [[a|e] w']; simpl in *; [|done].
  rewrite <- Hc. apply Hk.
Qed.

Lemma preserves_if {A} (b : bool) (c1 c2 : M F S A) :
  preserves f c1 -> preserves f c2 -> preserves f (if b then c1 else c2).
Proof. by destruct b. Qed.

Lemma preserves_setattr (upd : S -> S) :
  (forall s m, f (World (upd s) m) = f (World s m)) ->
  preserves f (setattr upd).
Proof. intros Hupd [s m]. apply Hupd. Qed.
End Frame.

#[global] Hint Resolve preserves_ret preserves_raise preserves_lift
  preserves_getattr preserves_deref preserves_assert preserves_if : frame.
#[global] Hint Extern 2 (preserves _ (bind _ _)) =>
  apply preserves_bind; [|intros ?] : frame.
#[global] Hint Extern 2 (preserves _ (setattr _)) =>
  apply preserves_setattr; intros ? ?; reflexivity : frame.

(** A computation that leaves the whole world alone gives the same outcome
    when it is run again. *)
Lemma pure_rerun {F S A} (c : M F S A) :
  preserves (fun w => w) c ->
  forall w, exec c w = w /\ outcome c (exec c w) = outcome c w.
Proof. intros Hc w. rewrite (Hc w). done. Qed.

Section ComputeIsPure.
Context {F : Type} `{FloatOps F} `{Externals F}.

Lemma MaskedAccuracy_compute_pure :
  preserves (fun w => w) (MaskedAccuracy.compute (F:=F)).
Proof. unfold MaskedAccuracy.compute. auto with frame. Qed.

Lemma CrossEntropyLoss_compute_pure :
  preserves (fun w => w) (CrossEntropyLoss.compute (F:=F)).
Proof. unfold CrossEntropyLoss.compute. auto with frame. Qed.

Lemma LanguageCrossEntropyLoss_compute_pure :
  preserves (fun w => w) (LanguageCrossEntropyLoss.compute (F:=F)).
Proof. unfold LanguageCrossEntropyLoss.compute. auto with frame. Qed.

Lemma Perplexity_compute_pure :
  preserves (fun w => w) (Perplexity.compute (F:=F)).
Proof.
  unfold Perplexity.compute.
  pose proof LanguageCrossEntropyLoss_compute_pure. auto with frame.
Qed.

Lemma deref_all_pure ls :
  preserves (fun w => w) (BinaryF1Score.deref_all (F:=F) ls).
Proof. induction ls as [|l ls IH]; simpl; auto with frame. Qed.

Lemma BinaryF1Score_compute_pure :
  preserves (fun w => w) (BinaryF1Score.compute (F:=F)).
Proof.
  unfold BinaryF1Score.compute.
  pose proof deref_all_pure. auto 10 with frame.
Qed.

(** C2. For each of the five metrics and every state, [compute] leaves
    the attributes and the store as they were, and a second [compute]
    right after the first gives the same outcome. *)
Theorem compute_idempotent :
  (forall w, exec (MaskedAccuracy.compute (F:=F)) w = w /\
     outcome MaskedAccuracy.compute (exec (MaskedAccuracy.compute (F:=F)) w)
     = outcome MaskedAccuracy.compute w) /\
  (forall w, exec (CrossEntropyLoss.compute (F:=F)) w = w /\
     outcome CrossEntropyLoss.compute (exec (CrossEntropyLoss.compute (F:=F)) w)
     = outcome CrossEntropyLoss.compute w) /\
  (forall w, exec (LanguageCrossEntropyLoss.compute (F:=F)) w = w /\
     outcome LanguageCrossEntropyLoss.compute
       (exec (LanguageCrossEntropyLoss.compute (F:=F)) w)
     = outcome LanguageCrossEntropyLoss.compute w) /\
  (forall w, exec (Perplexity.compute (F:=F)) w = w /\
     outcome Perplexity.compute (exec (Perplexity.compute (F:=F)) w)
     = outcome Perplexity.compute w) /\
  (forall w, exec (BinaryF1Score.compute (F:=F)) w = w /\
     outcome BinaryF1Score.compute (exec (BinaryF1Score.compute (F:=F)) w)
     = outcome BinaryF1Score.compute w).
Proof.
  repeat apply conj; apply pure_rerun.
  - apply MaskedAccuracy_compute_pure.
  - apply CrossEntropyLoss_compute_pure.
  - apply LanguageCrossEntropyLoss_compute_pure.
  - apply Perplexity_compute_pure.
  - apply BinaryF1Score_compute_pure.
Qed.
End ComputeIsPure.

(** ** Perplexity against the cross-entropy it extends *)

Section PerplexityIsExp.
Context {F : Type} `{FloatOps F} `{Externals F}.

Lemma Perplexity_compute_eq (w : world F (Perplexity.t F)) :
  Perplexity.compute w =
  (result_map fexp (outcome LanguageCrossEntropyLoss.compute w), w).
Proof. reflexivity. Qed.

Lemma run_updates_app {S} (upd : loc -> loc -> M F S unit) bs1 bs2 w :
  run_updates upd (bs1 ++ bs2) w = run_updates upd bs2 (run_updates upd bs1 w).
Proof. unfold run_updates. apply fold_left_app. Qed.

Lemma Perplexity_run_updates batches (w : world F (Perplexity.t F)) :
  run_updates Perplexity.update batches w =
  run_updates LanguageCrossEntropyLoss.update batches w.
Proof.
  revert w. induction batches as [|b bs IH]; intros w; [done|].
  simpl. apply IH.
Qed.

(** C1. After the same sequence of [update] calls on a fresh
    [Perplexity] and on a fresh [LanguageCrossEntropyLoss], the two hold
    the same state, and [Perplexity.compute()] is [exp] applied to what
    [LanguageCrossEntropyLoss.compute()] returns on it. *)
Theorem Perplexity_is_exp_of_cross_entropy
    (batches : list (loc * loc)) (m : gmap loc (pyobj F)) :
  let wL := run_updates LanguageCrossEntropyLoss.update batches
              (World LanguageCrossEntropyLoss.__init__ m) in
  let wP := run_updates Perplexity.update batches
              (World Perplexity.__init__ m) in
  wP = wL /\
  outcome Perplexity.compute wP =
    result_map fexp (outcome LanguageCrossEntropyLoss.compute wL) /\
  outcome LanguageCrossEntropyLoss.compute wL =
    Ok (fdiv (LanguageCrossEntropyLoss.sum_loss (self wL))
             (of_int (LanguageCrossEntropyLoss.total_batches (self wL)))).
Proof.
  intros wL wP.
  assert (wP = wL) as -> by apply Perplexity_run_updates.
  split; [done|]. split; [|done].
  unfold outcome. by rewrite Perplexity_compute_eq.
Qed.
End PerplexityIsExp.

(** ** [compute] on a fresh metric *)

Section ComputeBeforeUpdate.
Context {F : Type} `{FloatOps F}.

(** C4. On a freshly constructed metric, whose denominator is zero,
    [compute] yields the undefined value: the quotient of the zero
    accumulators, which in IEEE arithmetic is NaN (0.0 / 0 for
    [MaskedAccuracy], whose numerator is converted by [.float()], and for
    the two cross-entropy metrics), and for [Perplexity] its exponential,
    NaN again.  The state is left as it was. *)
Theorem compute_before_update_undefined (m : gmap loc (pyobj F)) :
  fis_nan (fdiv (of_int 0) (of_int 0)) = true ->
  fis_nan (fdiv fzero (of_int 0)) = true ->
  (forall x, fis_nan x = true -> fis_nan (fexp x) = true) ->
  (forall ignore_index, exists v,
     MaskedAccuracy.compute (World (MaskedAccuracy.__init__ ignore_index) m) =
     (Ok v, World (MaskedAccuracy.__init__ ignore_index) m) /\
     fis_nan v = true) /\
  (forall vocab_size ignore_index, exists v,
     CrossEntropyLoss.compute
       (World (CrossEntropyLoss.__init__ vocab_size ignore_index) m) =
     (Ok v, World (CrossEntropyLoss.__init__ vocab_size ignore_index) m) /\
     fis_nan v = true) /\
  (exists v,
     LanguageCrossEntropyLoss.compute (World LanguageCrossEntropyLoss.__init__ m) =
     (Ok v, World LanguageCrossEntropyLoss.__init__ m) /\
     fis_nan v = true) /\
  (exists v,
     Perplexity.compute (World Perplexity.__init__ m) =
     (Ok v, World Perplexity.__init__ m) /\
     fis_nan v = true).
Proof.
  intros Hint Hzero Hexp. repeat apply conj.
  - intros ign. exists (fdiv (of_int 0) (of_int 0)). by split.
  - intros V ign. exists (fdiv fzero (of_int 0)). by split.
  - exists (fdiv fzero (of_int 0)). by split.
  - exists (fexp (fdiv fzero (of_int 0))). split; [reflexivity|]. by apply Hexp.
Qed.
End ComputeBeforeUpdate.

(** ** What [update] writes *)

Section UpdateFrame.
Context {F : Type} `{FloatOps F} `{Externals F}.

Lemma MaskedAccuracy_update_frame output target :
  preserves (fun w : world F MaskedAccuracy.t =>
               (MaskedAccuracy.ignore_index (self w),
                MaskedAccuracy.reductions (self w), mem w))
            (MaskedAccuracy.update output target).
Proof.
  unfold MaskedAccuracy.update, MaskedAccuracy.iadd_correct,
    MaskedAccuracy.iadd_total.
  auto 12 with frame.
Qed.

Lemma CrossEntropyLoss_update_frame output target :
  preserves (fun w : world F (CrossEntropyLoss.t F) =>
               (CrossEntropyLoss.vocab_size (self w),
                CrossEntropyLoss.ignore_index (self w),
                CrossEntropyLoss.loss_fn (self w),
                CrossEntropyLoss.reductions (self w), mem w))
            (CrossEntropyLoss.update output target).
Proof.
  unfold CrossEntropyLoss.update, CrossEntropyLoss.iadd_total_batches,
    CrossEntropyLoss.iadd_sum_loss.
  auto 16 with frame.
Qed.

Lemma LanguageCrossEntropyLoss_iadd_frame loss :
  preserves (fun w : world F (LanguageCrossEntropyLoss.t F) =>
               (LanguageCrossEntropyLoss.reductions (self w), mem w))
            (LanguageCrossEntropyLoss.iadd_sum_loss loss).
Proof.
  unfold LanguageCrossEntropyLoss.iadd_sum_loss.
  destruct loss as [[[|? ?] [|? [|? ?]]]|[[|? ?] [|? [|? ?]]]| | |];
    auto with frame.
Qed.

Lemma LanguageCrossEntropyLoss_update_frame output target :
  preserves (fun w : world F (LanguageCrossEntropyLoss.t F) =>
               (LanguageCrossEntropyLoss.reductions (self w), mem w))
            (LanguageCrossEntropyLoss.update output target).
Proof.
  unfold LanguageCrossEntropyLoss.update,
    LanguageCrossEntropyLoss.iadd_total_batches.
  pose proof LanguageCrossEntropyLoss_iadd_frame.
  auto 12 with frame.
Qed.

Lemma BinaryF1Score_update_frame output target :
  preserves (fun w : world F BinaryF1Score.t =>
               (BinaryF1Score.reductions (self w), mem w))
            (BinaryF1Score.update output target).
Proof.
  unfold BinaryF1Score.update, BinaryF1Score.append_predictions,
    BinaryF1Score.append_labels.
  auto with frame.
Qed.

(** C8. Whatever [update] is called with and whether it returns or
    raises, the configuration of the metric ([ignore_index],
    [vocab_size], [loss_fn], the reduction declared for each field) is
    what it was before the call, and so is every object of the store,
    the one [target] refers to included: only the accumulators change. *)
Theorem update_writes_accumulators_only (output target : loc) :
  (forall w : world F MaskedAccuracy.t,
     let w' := exec (MaskedAccuracy.update output target) w in
     MaskedAccuracy.ignore_index (self w') = MaskedAccuracy.ignore_index (self w) /\
     MaskedAccuracy.reductions (self w') = MaskedAccuracy.reductions (self w) /\
     mem w' = mem w) /\
  (forall w : world F (CrossEntropyLoss.t F),
     let w' := exec (CrossEntropyLoss.update output target) w in
     CrossEntropyLoss.vocab_size (self w') = CrossEntropyLoss.vocab_size (self w) /\
     CrossEntropyLoss.ignore_index (self w') = CrossEntropyLoss.ignore_index (self w) /\
     CrossEntropyLoss.loss_fn (self w') = CrossEntropyLoss.loss_fn (self w) /\
     CrossEntropyLoss.reductions (self w') = CrossEntropyLoss.reductions (self w) /\
     mem w' = mem w) /\
  (forall w : world F (LanguageCrossEntropyLoss.t F),
     let w' := exec (LanguageCrossEntropyLoss.update output target) w in
     LanguageCrossEntropyLoss.reductions (self w')
       = LanguageCrossEntropyLoss.reductions (self w) /\
     mem w' = mem w) /\
  (forall w : world F (Perplexity.t F),
     let w' := exec (Perplexity.update output target) w in
     LanguageCrossEntropyLoss.reductions (self w')
       = LanguageCrossEntropyLoss.reductions (self w) /\
     mem w' = mem w) /\
  (forall w : world F BinaryF1Score.t,
     let w' := exec (BinaryF1Score.update output target) w in
     BinaryF1Score.reductions (self w') = BinaryF1Score.reductions (self w) /\
     mem w' = mem w).
Proof.
  repeat apply conj; intros w w'.
  - pose proof (MaskedAccuracy_update_frame output target w) as E.
    simpl in E. by simplify_eq.
  - pose proof (CrossEntropyLoss_update_frame output target w) as E.
    simpl in E. by simplify_eq.
  - pose proof (LanguageCrossEntropyLoss_update_frame output target w) as E.
    simpl in E. by simplify_eq.
  - pose proof (LanguageCrossEntropyLoss_update_frame output target w) as E.
    simpl in E. by simplify_eq.
  - pose proof (BinaryF1Score_update_frame output target w) as E.
    simpl in E. by simplify_eq.
Qed.
End UpdateFrame.

(** ** DropBlock.forward *)

Section DropBlockForward.
Context {F : Type} `{FloatOps F}.
Variable dropblock : loc -> F -> Z -> bool -> M F (DropBlock.t F) loc.

(** C10. Outside training, or with a falsy [drop_prob], [forward(x)]
    returns the reference [x] it was given and touches nothing; in
    training with a truthy [drop_prob] it is the call
    [dropblock(x, self.drop_prob, self.block_size, self.batchwise)]. *)
Theorem forward_identity_unless_training_and_drop_prob
    (w : world F (DropBlock.t F)) (x : loc) :
  (DropBlock.training (self w) = false \/
   ftruthy (DropBlock.drop_prob (self w)) = false ->
   DropBlock.forward dropblock x w = (Ok x, w)) /\
  (DropBlock.training (self w) = true ->
   ftruthy (DropBlock.drop_prob (self w)) = true ->
   DropBlock.forward dropblock x w =
     dropblock x (DropBlock.drop_prob (self w)) (DropBlock.block_size (self w))
       (DropBlock.batchwise (self w)) w).
Proof.
  unfold DropBlock.forward, bind, getattr, ret. simpl. split.
  - intros [-> | ->]; [done|]. by rewrite orb_true_r.
  - intros -> ->. reflexivity.
Qed.
End DropBlockForward.

(** ** MaskedAccuracy on the example of the specification *)

Lemma in_int64_range z : - 2 ^ 63 <= z < 2 ^ 63 -> in_int64 z = true.
Proof. intros Hz. unfold in_int64. apply andb_true_iff. lia. Qed.


Section MaskedAccuracyExample.
Context {F : Type} `{FloatOps F}.

Lemma mask_of_example (ignore : Z) :
  ignore <> 1 -> ignore <> 2 ->
  ne_mask (longs (F:=F) (Tensor [4%nat] [1; ignore; 2; 2])) ignore =
  Tensor [4%nat] [true; false; true; true].
Proof.
  intros H1 H2. unfold ne_mask, longs, data, shape, map, scalar_eqb.
  rewrite Z.eqb_refl.
  rewrite (proj2 (Z.eqb_neq 1 ignore)) by congruence.
  rewrite (proj2 (Z.eqb_neq 2 ignore)) by congruence.
  reflexivity.
Qed.

(** C7. With [ignore_index = ignore], a sentinel that is no class label
    of the batch (and, being an entry of the int64 target, an int64
    value), one [update] whose target is [[1, ignore, 2, 2]] and whose
    predictions argmax to [[1, 0, 2, 3]] leaves [correct = 2] and
    [total = 3], and [compute()] returns 2/3. *)
Theorem masked_accuracy_two_thirds
    (ignore : Z) (m : gmap loc (pyobj F)) (preds target : loc) (p : pyobj F) :
  ignore <> 1 -> ignore <> 2 ->
  - 2 ^ 63 <= ignore < 2 ^ 63 ->
  m !! preds = Some p ->
  MaskedAccuracy.argmax_obj p = Ok (Tensor [4%nat] [1; 0; 2; 3]) ->
  m !! target = Some (PLong (Tensor [4%nat] [1; ignore; 2; 2])) ->
  let w0 := World (MaskedAccuracy.__init__ (Some ignore)) m in
  let w := exec (MaskedAccuracy.update preds target) w0 in
  outcome (MaskedAccuracy.update preds target) w0 = Ok tt /\
  MaskedAccuracy.correct (self w) = 2 /\
  MaskedAccuracy.total (self w) = 3 /\
  outcome MaskedAccuracy.compute w = Ok (fdiv (of_int 2) (of_int 3)).
Proof.
  intros H1 H2 Hrange Hp Hargmax Ht w0 w.
  assert (MaskedAccuracy.update preds target w0 =
          (Ok tt, World (MaskedAccuracy.Build (Some ignore) 2 3
                           (MaskedAccuracy.reductions (self w0))) m)) as E.
  { unfold MaskedAccuracy.update, bind, deref, lift, w0.
    cbn -[tensor_ne]. rewrite Hp. cbn -[tensor_ne].
    rewrite Hargmax. cbn -[tensor_ne]. rewrite Ht. cbn -[tensor_ne].
    unfold shape_eqb. rewrite bool_decide_eq_true_2 by done.
    cbn -[tensor_ne]. unfold tensor_ne.
    rewrite (in_int64_range ignore Hrange), (mask_of_example ignore H1 H2).
    reflexivity. }
  subst w. unfold exec, outcome. rewrite E. simpl. done.
Qed.
End MaskedAccuracyExample.

(** ** The forms of model output [update] takes *)

Section OutputForms.
Context {F : Type} `{FloatOps F} `{Externals F}.

(** X14. [LanguageCrossEntropyLoss.update], which [Perplexity] inherits,
    takes the loss from a mapping that contains ['loss'], computes it from
    the logits of a mapping that contains ['logits'] or from a raw tensor,
    and raises the unsupported-type exception, without touching the
    state, for an output that is neither a mapping nor a tensor. *)
Theorem update_output_forms
    (m : gmap loc (pyobj F)) (output target : loc) (o : pyobj F) :
  m !! output = Some o ->
  (forall s mp x,
     o = PMapping mp -> mp !! "loss" = Some (Tensor [] [x]) ->
     LanguageCrossEntropyLoss.update output target (World s m) =
     (Ok tt, World (accumulated s x) m)) /\
  (forall s mp lg tg x,
     o = PMapping mp -> mp !! "loss" = None -> mp !! "logits" = Some lg ->
     m !! target = Some tg ->
     soft_cross_entropy (PFloat lg) tg = Ok (Tensor [] [x]) ->
     LanguageCrossEntropyLoss.update output target (World s m) =
     (Ok tt, World (accumulated s x) m)) /\
  (forall s tg x,
     isinstance_Tensor o = true ->
     m !! target = Some tg ->
     soft_cross_entropy o tg = Ok (Tensor [] [x]) ->
     LanguageCrossEntropyLoss.update output target (World s m) =
     (Ok tt, World (accumulated s x) m)) /\
  (forall s,
     isinstance_Mapping o = false -> isinstance_Tensor o = false ->
     LanguageCrossEntropyLoss.update output target (World s m) =
     (Raise UnsupportedOutput, World s m)) /\
  (forall s, Perplexity.update output target (World s m) =
             LanguageCrossEntropyLoss.update output target (World s m)).
Proof.
  intros Ho. repeat apply conj.
  - intros s mp x -> Hloss.
    unfold LanguageCrossEntropyLoss.update, bind, deref, lift. simpl.
    rewrite Ho. simpl.
    rewrite bool_decide_eq_true_2 by (rewrite Hloss; eauto).
    rewrite Hloss. reflexivity.
  - intros s mp lg tg x -> Hloss Hlogits Htg Hsce.
    unfold LanguageCrossEntropyLoss.update, bind, deref, lift. simpl.
    rewrite Ho. simpl.
    rewrite bool_decide_eq_false_2 by (rewrite Hloss; by intros [? ?]).
    rewrite Hlogits. simpl. rewrite Htg. simpl. rewrite Hsce. reflexivity.
  - intros s tg x Hten Htg Hsce.
    unfold LanguageCrossEntropyLoss.update, bind, deref, lift. simpl.
    rewrite Ho. simpl.
    destruct o; try discriminate; simpl; rewrite Htg; simpl;
      rewrite Hsce; reflexivity.
  - intros s Hmap Hten.
    unfold LanguageCrossEntropyLoss.update, bind, deref. simpl.
    rewrite Ho. simpl. rewrite Hmap, Hten. reflexivity.
  - reflexivity.
Qed.
End OutputForms.

(** ** Shape checks in [update] *)

Section ShapeChecks.
Context {F : Type} `{FloatOps F} `{Externals F}.

(** C5 (as the code has it). [MaskedAccuracy.update] asserts that the
    argmax of the predictions has the shape of the target: with different
    shapes it raises at once and leaves the accumulators alone, with equal
    shapes and an int64 [ignore_index] it returns.
    [CrossEntropyLoss.update] fails inside the loss function, before any
    accumulator is written, when the number of rows of the flattened
    output differs from the length of the flattened target.
    [LanguageCrossEntropyLoss.update], and with it [Perplexity.update],
    has no check of its own: a ready ['loss'] is accumulated whatever the
    target is, and otherwise the shapes are left to [soft_cross_entropy],
    whose exception comes out of the call with nothing written.
    [BinaryF1Score.update] checks nothing: it appends the two references
    and returns. *)
Theorem update_shape_checks (m : gmap loc (pyobj F)) (output target : loc) :
  (forall s p pa tg,
     m !! output = Some p -> MaskedAccuracy.argmax_obj p = Ok pa ->
     m !! target = Some (PLong tg) ->
     (shape pa <> shape tg ->
      MaskedAccuracy.update output target (World s m) =
      (Raise AssertionError, World s m)) /\
     (forall i,
      shape pa = shape tg ->
      MaskedAccuracy.ignore_index s = Some i -> - 2 ^ 63 <= i < 2 ^ 63 ->
      outcome (MaskedAccuracy.update output target) (World s m) = Ok tt)) /\
  (forall (c : CrossEntropyLoss.t F) i x x' N C tg,
     CrossEntropyLoss.loss_fn c = CrossEntropyLoss.LossModule (Some i) "sum" ->
     - 2 ^ 63 <= i < 2 ^ 63 ->
     m !! output = Some (PFloat x) ->
     CrossEntropyLoss.view_vocab (CrossEntropyLoss.vocab_size c) (PFloat x)
       = Ok (PFloat x') ->
     shape x' = [N; C] ->
     m !! target = Some (PLong tg) ->
     N <> length (data tg) ->
     CrossEntropyLoss.update output target (World c m) =
     (Raise ValueError, World c m)) /\
  (forall s mp x other,
     m !! output = Some (PMapping mp) ->
     mp !! "loss" = Some (Tensor [] [x]) ->
     LanguageCrossEntropyLoss.update output other (World s m) =
     (Ok tt, World (accumulated s x) m) /\
     Perplexity.update output other (World s m) =
     (Ok tt, World (accumulated s x) m)) /\
  (forall s o tg e,
     m !! output = Some o -> isinstance_Tensor o = true ->
     m !! target = Some tg ->
     soft_cross_entropy o tg = Raise e ->
     LanguageCrossEntropyLoss.update output target (World s m) =
     (Raise e, World s m) /\
     Perplexity.update output target (World s m) = (Raise e, World s m)) /\
  (forall s : BinaryF1Score.t,
     BinaryF1Score.update output target (World s m) =
     (Ok tt,
      World (BinaryF1Score.Build (BinaryF1Score.predictions s ++ [output])
               (BinaryF1Score.labels s ++ [target])
               (BinaryF1Score.reductions s)) m)).
Proof.
  repeat apply conj.
  - intros s p pa tg Hp Ha Ht.
    unfold outcome, MaskedAccuracy.update, bind, deref, lift.
    cbn -[tensor_ne].
    rewrite Hp. cbn -[tensor_ne]. rewrite Ha. cbn -[tensor_ne].
    rewrite Ht. cbn -[tensor_ne].
    unfold shape_eqb. split.
    + intros Hs. by rewrite bool_decide_eq_false_2.
    + intros i Hs Hi Hrange. rewrite bool_decide_eq_true_2 by done.
      cbn -[tensor_ne]. rewrite Hi. cbn -[tensor_ne].
      unfold tensor_ne. by rewrite (in_int64_range i Hrange).
  - intros c i x x' N C tg Hlf Hrange Hx Hview Hshape Ht Hlen.
    unfold CrossEntropyLoss.update, bind, deref, lift, getattr. simpl.
    rewrite Hx. simpl. rewrite Hview. simpl. rewrite Ht. simpl.
    rewrite Hlf. simpl.
    unfold cross_entropy_sum. rewrite (in_int64_range i Hrange), Hshape. simpl.
    by rewrite (proj2 (Nat.eqb_neq _ _) Hlen).
  - intros s mp x other Ho Hloss.
    assert (LanguageCrossEntropyLoss.update output other (World s m) =
            (Ok tt, World (accumulated s x) m)) as E; [|by split].
    unfold LanguageCrossEntropyLoss.update, bind, deref, lift. simpl.
    rewrite Ho. simpl.
    rewrite bool_decide_eq_true_2 by (rewrite Hloss; eauto).
    rewrite Hloss. reflexivity.
  - intros s o tg e Ho Hten Htg Hsce.
    assert (LanguageCrossEntropyLoss.update output target (World s m) =
            (Raise e, World s m)) as E; [|by split].
    unfold LanguageCrossEntropyLoss.update, bind, deref, lift. simpl.
    rewrite Ho. simpl.
    destruct o; try discriminate; simpl; rewrite Htg; simpl;
      rewrite Hsce; reflexivity.
  - intros s. reflexivity.
Qed.
End ShapeChecks.

(** C5, the claim as stated fails: [BinaryF1Score.update] returns normally
    on a batch whose predictions have two rows and whose target has three
    entries, and records the two references. *)
Lemma BinaryF1Score_update_accepts_mismatch :
  BinaryF1Score.update 3%nat 5%nat (World BinaryF1Score.__init__ Examples.store)
  = (Ok tt,
     World (BinaryF1Score.Build [3%nat] [5%nat]
              (BinaryF1Score.reductions BinaryF1Score.__init__))
       Examples.store).
Proof. reflexivity. Qed.

(** ** The denominator of CrossEntropyLoss *)

Section CrossEntropyDenominator.
Context {F : Type} `{FloatOps F} `{Externals F}.

Lemma ce_rows_sum ign C rs ts acc l :
  ce_rows ign C rs ts acc = Ok l ->
  l = fold_left fadd (kept_losses ign rs ts) acc.
Proof.
  revert ts acc. induction rs as [|r rs IH]; intros [|t ts] acc; simpl;
    try (intros [= <-]; reflexivity).
  destruct (t =? ign); [apply IH|].
  destruct ((0 <=? t) && (t <? Z.of_nat C)); [|discriminate].
  simpl. apply IH.
Qed.

Lemma view_vocab_float V (x : tensor F) o :
  CrossEntropyLoss.view_vocab V (PFloat x) = Ok o ->
  o = PFloat (Tensor [(length (data x) / Z.to_nat V)%nat; Z.to_nat V] (data x)).
Proof.
  unfold CrossEntropyLoss.view_vocab, view_rows.
  destruct (V <=? 0); [discriminate|].
  destruct (Z.to_nat V) as [|n]; [discriminate|].
  destruct (length (data x) mod S n =? 0)%nat; [|discriminate].
  unfold result_map. by intros [= <-].
Qed.

Lemma cross_entropy_sum_in_range i (x : tensor F) (t : tensor Z) l :
  cross_entropy_sum i x t = Ok l -> in_int64 i = true.
Proof. unfold cross_entropy_sum. by destruct (in_int64 i). Qed.

(** [update] on float scores and int64 targets, once the view of the
    scores is known to succeed. *)
Lemma CrossEntropyLoss_update_float
    (m : gmap loc (pyobj F)) (output target : loc) (V : Z) (ign : option Z)
    (sl : F) (tb : Z) (r : gmap string reduce_fx)
    (x : tensor F) (o' : pyobj F) (tg : tensor Z) :
  m !! output = Some (PFloat x) ->
  CrossEntropyLoss.view_vocab V (PFloat x) = Ok o' ->
  m !! target = Some (PLong tg) ->
  let x' := Tensor [(length (data x) / Z.to_nat V)%nat; Z.to_nat V] (data x) in
  let lm := CrossEntropyLoss.LossModule ign "sum" in
  CrossEntropyLoss.update output target
    (World (CrossEntropyLoss.Build V ign lm sl tb r) m) =
  match CrossEntropyLoss.call_loss_fn lm (PFloat x') (PLong (view_flat tg)) with
  | Ok l =>
      match (if CrossEntropyLoss.truthy_index ign
             then CrossEntropyLoss.masked_count (PLong (view_flat tg)) ign
             else Ok (Z.of_nat (length (data tg)))) with
      | Ok d =>
          (Ok tt,
           World (CrossEntropyLoss.Build V ign lm (fadd sl l) (add64 tb d) r) m)
      | Raise e => (Raise e, World (CrossEntropyLoss.Build V ign lm sl tb r) m)
      end
  | Raise e => (Raise e, World (CrossEntropyLoss.Build V ign lm sl tb r) m)
  end.
Proof.
  intros Hx Hview Ht x' lm.
  apply view_vocab_float in Hview as Ho'.
  unfold CrossEntropyLoss.update, bind, deref, lift, getattr.
  cbn -[CrossEntropyLoss.view_vocab CrossEntropyLoss.call_loss_fn
        CrossEntropyLoss.masked_count view_flat].
  rewrite Hx.
  cbn -[CrossEntropyLoss.view_vocab CrossEntropyLoss.call_loss_fn
        CrossEntropyLoss.masked_count view_flat].
  rewrite Hview, Ho'.
  cbn -[CrossEntropyLoss.view_vocab CrossEntropyLoss.call_loss_fn
        CrossEntropyLoss.masked_count view_flat].
  rewrite Ht.
  cbn -[CrossEntropyLoss.view_vocab CrossEntropyLoss.call_loss_fn
        CrossEntropyLoss.masked_count view_flat].
  fold x' lm.
  destruct (CrossEntropyLoss.call_loss_fn _ _ _) as [l|e]; [|done].
  destruct (CrossEntropyLoss.truthy_index ign); [|done].
  cbn -[CrossEntropyLoss.masked_count view_flat].
  by destruct (CrossEntropyLoss.masked_count _ _).
Qed.

Lemma masked_count_in_range (tg : tensor Z) i :
  in_int64 i = true ->
  CrossEntropyLoss.masked_count (F:=F) (PLong tg) (Some i)
  = Ok (torch_sum (ne_mask (longs tg) i)).
Proof. intros Hi. unfold CrossEntropyLoss.masked_count, tensor_ne. by rewrite Hi. Qed.

(** C9. A [CrossEntropyLoss] built with [ignore_index = 0] adds the full
    length of the flattened target to [total_batches], exactly as one
    built with [ignore_index = None] does, while its loss function, built
    with [ignore_index = 0], sums the per-example losses of the rows whose
    target is not 0 only; the count of the targets different from
    [ignore_index] is the increment only for a nonzero [ignore_index]. *)
Theorem ignore_index_zero_counts_every_target
    (m : gmap loc (pyobj F)) (output target : loc) (V : Z)
    (sl : F) (tb : Z) (r : gmap string reduce_fx)
    (x : tensor F) (o' : pyobj F) (tg : tensor Z) :
  m !! output = Some (PFloat x) ->
  CrossEntropyLoss.view_vocab V (PFloat x) = Ok o' ->
  m !! target = Some (PLong tg) ->
  let N := (length (data x) / Z.to_nat V)%nat in
  let C := Z.to_nat V in
  let x' := Tensor [N; C] (data x) in
  let n := Z.of_nat (length (data tg)) in
  let metric ign sum_loss total_batches :=
    CrossEntropyLoss.Build V ign (CrossEntropyLoss.LossModule ign "sum")
      sum_loss total_batches r in
  (forall l,
     cross_entropy_sum 0 x' (view_flat tg) = Ok l ->
     CrossEntropyLoss.update output target (World (metric (Some 0) sl tb) m) =
     (Ok tt, World (metric (Some 0) (fadd sl l) (add64 tb n)) m) /\
     l = fold_left fadd (kept_losses 0 (rows N C (data x)) (data tg)) fzero) /\
  (forall l,
     cross_entropy_unset x' (view_flat tg) = Ok l ->
     CrossEntropyLoss.update output target (World (metric None sl tb) m) =
     (Ok tt, World (metric None (fadd sl l) (add64 tb n)) m)) /\
  (forall i l,
     i <> 0 ->
     cross_entropy_sum i x' (view_flat tg) = Ok l ->
     CrossEntropyLoss.update output target (World (metric (Some i) sl tb) m) =
     (Ok tt,
      World (metric (Some i) (fadd sl l)
               (add64 tb (torch_sum (ne_mask (longs (view_flat tg)) i)))) m)).
Proof.
  intros Hx Hview Ht N C x' n metric.
  pose proof (fun ign =>
    CrossEntropyLoss_update_float m output target V ign sl tb r x o' tg
      Hx Hview Ht) as Hupd.
  cbv zeta in Hupd. fold N C x' in Hupd.
  repeat apply conj.
  - intros l Hl. split.
    + unfold metric. rewrite (Hupd (Some 0)). simpl. by rewrite Hl.
    + unfold cross_entropy_sum in Hl. simpl in Hl.
      destruct (N =? length (data tg))%nat; [|discriminate].
      by apply ce_rows_sum in Hl.
  - intros l Hl. unfold metric. rewrite (Hupd None). simpl. by rewrite Hl.
  - intros i l Hi Hl. unfold metric. rewrite (Hupd (Some i)).
    cbn [CrossEntropyLoss.call_loss_fn CrossEntropyLoss.lm_ignore_index
         CrossEntropyLoss.truthy_index].
    rewrite Hl, (proj2 (Z.eqb_neq i 0) Hi). cbn [negb].
    by rewrite (masked_count_in_range _ _ (cross_entropy_sum_in_range _ _ _ _ Hl)).
Qed.
End CrossEntropyDenominator.

(** ** Computations that only read the store *)

Section StoreOnly.
Context {F S : Type} (m : gmap loc (pyobj F)).

Lemma store_only_ret {A} (a : A) : store_only (S:=S) m (ret a).
Proof. by exists (Ok a). Qed.

Lemma store_only_raise {A} e : store_only (S:=S) m (raise (A:=A) e).
Proof. by exists (Raise e). Qed.

Lemma store_only_lift {A} (r : result A) : store_only (S:=S) m (lift r).
Proof. by exists r. Qed.

Lemma store_only_deref l : store_only (S:=S) m (deref l).
Proof.
  exists (match m !! l with Some o => Ok o | None => Raise ReferenceError end).
  intros s. unfold deref. simpl. by destruct (m !! l).
Qed.

Lemma store_only_bind {A B} (c : M F S A) (k : A -> M F S B) :
  store_only m c -> (forall a, store_only m (k a)) -> store_only m (bind c k).
Proof.
  intros [[a|e] Hc] Hk.
  - destruct (Hk a) as [r Hr]. exists r. intros s.
    unfold bind. rewrite Hc. apply Hr.
  - exists (Raise e). intros s. unfold bind. by rewrite Hc.
Qed.
End StoreOnly.

(** ** Merging the states of two workers *)

Lemma wrap64_add_l a b : wrap64 (wrap64 a + b) = wrap64 (a + b).
Proof.
  unfold wrap64. f_equal.
  replace ((a + 2 ^ 63) mod 2 ^ 64 - 2 ^ 63 + b + 2 ^ 63)
    with ((a + 2 ^ 63) mod 2 ^ 64 + b) by lia.
  rewrite Zplus_mod_idemp_l. f_equal. lia.
Qed.

Lemma wrap64_idemp a : wrap64 (wrap64 a) = wrap64 a.
Proof.
  replace (wrap64 a) with (wrap64 a + 0) at 1 by lia.
  rewrite wrap64_add_l. f_equal. lia.
Qed.

Lemma add64_assoc a b c : add64 (add64 a b) c = add64 a (add64 b c).
Proof.
  unfold add64. rewrite wrap64_add_l.
  rewrite (Z.add_comm a (wrap64 (b + c))), wrap64_add_l. f_equal. lia.
Qed.

Lemma add64_0_r a : wrap64 a = a -> add64 a 0 = a.
Proof. intros Ha. unfold add64. by rewrite Z.add_0_r. Qed.

Lemma add64_canonical a b : wrap64 (add64 a b) = add64 a b.
Proof. apply wrap64_idemp. Qed.

Section MaskedAccuracyMerge.
Context {F : Type} `{FloatOps F}.

(** One [update] either leaves the accumulators alone (it raised before
    writing), or adds to [correct] alone (it raised at [mask.sum()]), or
    adds to both; the amounts depend on the batch, not on what was
    accumulated before. *)
Lemma MaskedAccuracy_update_cases ign r (m : gmap loc (pyobj F)) o t :
  (forall c n,
     exec (MaskedAccuracy.update o t) (World (MaskedAccuracy.Build ign c n r) m)
     = World (MaskedAccuracy.Build ign c n r) m) \/
  (exists dc, forall c n,
     exec (MaskedAccuracy.update o t) (World (MaskedAccuracy.Build ign c n r) m)
     = World (MaskedAccuracy.Build ign (add64 c dc) n r) m) \/
  (exists dc dn, forall c n,
     exec (MaskedAccuracy.update o t) (World (MaskedAccuracy.Build ign c n r) m)
     = World (MaskedAccuracy.Build ign (add64 c dc) (add64 n dn) r) m).
Proof.
  unfold exec, MaskedAccuracy.update, bind, deref, lift. simpl.
  destruct (m !! o) as [p|]; [|by left]. simpl.
  destruct (MaskedAccuracy.argmax_obj p) as [pa|]; [|by left]. simpl.
  destruct (m !! t) as [tg|]; [|by left]. simpl.
  destruct (MaskedAccuracy.target_obj tg) as [ta|]; [|by left]. simpl.
  destruct (shape_eqb (shape pa) (shape ta)); [|by left]. simpl.
  destruct ign as [v|]; simpl.
  - unfold tensor_ne. destruct (in_int64 v); [|by left]. simpl.
    right. right. eauto.
  - right. left. eauto.
Qed.

Lemma MaskedAccuracy_run_shift ign r (m : gmap loc (pyobj F)) bs :
  forall c1 n1 c2 n2,
  exists c n,
    run_updates MaskedAccuracy.update bs
      (World (MaskedAccuracy.Build ign c2 n2 r) m)
    = World (MaskedAccuracy.Build ign c n r) m /\
    run_updates MaskedAccuracy.update bs
      (World (MaskedAccuracy.Build ign (add64 c1 c2) (add64 n1 n2) r) m)
    = World (MaskedAccuracy.Build ign (add64 c1 c) (add64 n1 n) r) m.
Proof.
  induction bs as [|[o t] bs IH]; intros c1 n1 c2 n2; simpl.
  - eauto.
  - destruct (MaskedAccuracy_update_cases ign r m o t)
      as [E|[(dc & E)|(dc & dn & E)]]; rewrite !E.
    + apply IH.
    + rewrite !add64_assoc. apply IH.
    + rewrite !add64_assoc. apply IH.
Qed.

Lemma MaskedAccuracy_run_canonical ign r (m : gmap loc (pyobj F)) bs :
  forall c n, wrap64 c = c -> wrap64 n = n ->
  exists c' n',
    run_updates MaskedAccuracy.update bs
      (World (MaskedAccuracy.Build ign c n r) m)
    = World (MaskedAccuracy.Build ign c' n' r) m /\
    wrap64 c' = c' /\ wrap64 n' = n'.
Proof.
  induction bs as [|[o t] bs IH]; intros c n Hc Hn; simpl.
  - eauto.
  - destruct (MaskedAccuracy_update_cases ign r m o t)
      as [E|[(dc & E)|(dc & dn & E)]]; rewrite E.
    + by apply IH.
    + apply IH; [apply add64_canonical|done].
    + apply IH; apply add64_canonical.
Qed.

Lemma MaskedAccuracy_merge ign (m : gmap loc (pyobj F)) bs1 bs2 :
  let init := World (MaskedAccuracy.__init__ ign) m in
  let w1 := run_updates MaskedAccuracy.update bs1 init in
  let w2 := run_updates MaskedAccuracy.update bs2 init in
  let w := run_updates MaskedAccuracy.update (bs1 ++ bs2) init in
  exists s, merge_MaskedAccuracy (self w1) (self w2) = Some s /\
            World s m = w.
Proof.
  intros init w1 w2 w. subst w. rewrite run_updates_app. fold w1.
  unfold init, MaskedAccuracy.__init__ in *.
  set (r := {[ "correct" := Sum; "total" := Sum ]} : gmap string reduce_fx) in *.
  destruct (MaskedAccuracy_run_canonical ign r m bs1 0 0 eq_refl eq_refl)
    as (c1 & n1 & E1 & Hc1 & Hn1).
  destruct (MaskedAccuracy_run_shift ign r m bs2 c1 n1 0 0)
    as (c2 & n2 & E2 & E12).
  rewrite !add64_0_r in E12 by done.
  subst w1 w2. rewrite E1, E2, E12. simpl.
  eexists. split; [|reflexivity]. reflexivity.
Qed.
End MaskedAccuracyMerge.

Section LossMerge.
Context {F : Type} `{FloatOps F} `{Externals F}.

(** The accumulation of losses is taken to be exact: addition is
    associative and zero is neutral, which float32 addition satisfies only
    up to rounding. *)
Hypothesis fadd_assoc : forall a b c : F, fadd (fadd a b) c = fadd a (fadd b c).
Hypothesis fadd_0_r : forall a : F, fadd a fzero = a.

Lemma CrossEntropyLoss_update_cases V ign lf r (m : gmap loc (pyobj F)) o t :
  (forall l n,
     exec (CrossEntropyLoss.update o t)
       (World (CrossEntropyLoss.Build V ign lf l n r) m)
     = World (CrossEntropyLoss.Build V ign lf l n r) m) \/
  (exists dl dn, forall l n,
     exec (CrossEntropyLoss.update o t)
       (World (CrossEntropyLoss.Build V ign lf l n r) m)
     = World (CrossEntropyLoss.Build V ign lf (fadd l dl) (add64 n dn) r) m).
Proof.
  unfold exec, CrossEntropyLoss.update, bind, deref, lift, getattr.
  cbn -[CrossEntropyLoss.view_vocab CrossEntropyLoss.call_loss_fn].
  destruct (m !! o) as [p|]; [|by left].
  cbn -[CrossEntropyLoss.view_vocab CrossEntropyLoss.call_loss_fn].
  destruct (isinstance_Tensor p); [|by left].
  cbn -[CrossEntropyLoss.view_vocab CrossEntropyLoss.call_loss_fn].
  destruct (CrossEntropyLoss.view_vocab V p) as [p'|]; [|by left].
  cbn -[CrossEntropyLoss.view_vocab CrossEntropyLoss.call_loss_fn].
  destruct (m !! t) as [tg|]; [|by left].
  cbn -[CrossEntropyLoss.view_vocab CrossEntropyLoss.call_loss_fn].
  destruct (CrossEntropyLoss.view_target tg) as [tg'|]; [|by left].
  cbn -[CrossEntropyLoss.view_vocab CrossEntropyLoss.call_loss_fn].
  destruct (CrossEntropyLoss.call_loss_fn lf p' tg') as [dl|]; [|by left].
  cbn -[CrossEntropyLoss.view_vocab CrossEntropyLoss.call_loss_fn].
  destruct (CrossEntropyLoss.truthy_index ign); simpl.
  - destruct (CrossEntropyLoss.masked_count tg' ign) as [dn|]; [|by left].
    right. eauto.
  - right. eauto.
Qed.

Lemma CrossEntropyLoss_run_shift V ign lf r (m : gmap loc (pyobj F)) bs :
  forall l1 n1 l2 n2,
  exists l n,
    run_updates CrossEntropyLoss.update bs
      (World (CrossEntropyLoss.Build V ign lf l2 n2 r) m)
    = World (CrossEntropyLoss.Build V ign lf l n r) m /\
    run_updates CrossEntropyLoss.update bs
      (World (CrossEntropyLoss.Build V ign lf (fadd l1 l2) (add64 n1 n2) r) m)
    = World (CrossEntropyLoss.Build V ign lf (fadd l1 l) (add64 n1 n) r) m.
Proof.
  induction bs as [|[o t] bs IH]; intros l1 n1 l2 n2; simpl.
  - eauto.
  - destruct (CrossEntropyLoss_update_cases V ign lf r m o t)
      as [E|(dl & dn & E)]; rewrite !E.
    + apply IH.
    + rewrite add64_assoc, fadd_assoc. apply IH.
Qed.

Lemma CrossEntropyLoss_run_canonical V ign lf r (m : gmap loc (pyobj F)) bs :
  forall l n, wrap64 n = n ->
  exists l' n',
    run_updates CrossEntropyLoss.update bs
      (World (CrossEntropyLoss.Build V ign lf l n r) m)
    = World (CrossEntropyLoss.Build V ign lf l' n' r) m /\
    wrap64 n' = n'.
Proof.
  induction bs as [|[o t] bs IH]; intros l n Hn; simpl.
  - eauto.
  - destruct (CrossEntropyLoss_update_cases V ign lf r m o t)
      as [E|(dl & dn & E)]; rewrite E.
    + by apply IH.
    + apply IH; apply add64_canonical.
Qed.

Lemma CrossEntropyLoss_merge V ign (m : gmap loc (pyobj F)) bs1 bs2 :
  let init := World (CrossEntropyLoss.__init__ V ign) m in
  let w1 := run_updates CrossEntropyLoss.update bs1 init in
  let w2 := run_updates CrossEntropyLoss.update bs2 init in
  let w := run_updates CrossEntropyLoss.update (bs1 ++ bs2) init in
  exists s, merge_CrossEntropyLoss (self w1) (self w2) = Some s /\
            World s m = w.
Proof.
  intros init w1 w2 w. subst w. rewrite run_updates_app. fold w1.
  unfold init, CrossEntropyLoss.__init__ in *.
  set (r := {[ "sum_loss" := Sum; "total_batches" := Sum ]}
         : gmap string reduce_fx) in *.
  set (lf := CrossEntropyLoss.LossModule ign "sum") in *.
  destruct (CrossEntropyLoss_run_canonical V ign lf r m bs1 fzero 0 eq_refl)
    as (l1 & n1 & E1 & Hn1).
  destruct (CrossEntropyLoss_run_shift V ign lf r m bs2 l1 n1 fzero 0)
    as (l2 & n2 & E2 & E12).
  rewrite add64_0_r, fadd_0_r in E12 by done.
  subst w1 w2. rewrite E1, E2, E12. simpl.
  eexists. split; [|reflexivity]. reflexivity.
Qed.

(** The two shapes a step of [LanguageCrossEntropyLoss] can take on the
    accumulators. *)
Lemma LanguageCrossEntropyLoss_accumulate_cases r (m : gmap loc (pyobj F))
    (loss : pyobj F) :
  additive r m (bind (LanguageCrossEntropyLoss.iadd_sum_loss loss)
                  (fun _ => LanguageCrossEntropyLoss.iadd_total_batches 1)).
Proof.
  destruct loss as [[[|? ?] [|? [|? ?]]]|[[|? ?] [|? [|? ?]]]| | |];
    try (by left); right; eauto.
Qed.

Lemma additive_bind {A B} r (m : gmap loc (pyobj F))
    (c : M F (LanguageCrossEntropyLoss.t F) A)
    (k : A -> M F (LanguageCrossEntropyLoss.t F) B) :
  store_only m c -> (forall a, additive r m (k a)) -> additive r m (bind c k).
Proof.
  intros [[a|e] Hc] Hk.
  - destruct (Hk a) as [E|(dl & dn & E)]; [left|right; exists dl, dn];
      intros l n; unfold exec, bind; rewrite Hc; apply E.
  - left. intros l n. unfold exec, bind. by rewrite Hc.
Qed.

Lemma LanguageCrossEntropyLoss_update_cases r (m : gmap loc (pyobj F)) o t :
  additive r m (LanguageCrossEntropyLoss.update o t).
Proof.
  unfold LanguageCrossEntropyLoss.update.
  apply additive_bind; [apply store_only_deref|]. intros p.
  apply additive_bind; [|apply LanguageCrossEntropyLoss_accumulate_cases].
  destruct (isinstance_Mapping p && LanguageCrossEntropyLoss.contains p "loss");
    [apply store_only_lift|].
  apply store_only_bind.
  - destruct (isinstance_Mapping p); [apply store_only_lift|].
    destruct (isinstance_Tensor p);
      [apply store_only_ret|apply store_only_raise].
  - intros logits. apply store_only_bind; [apply store_only_deref|].
    intros tg. apply store_only_lift.
Qed.

Lemma LanguageCrossEntropyLoss_run_shift r (m : gmap loc (pyobj F)) bs :
  forall l1 n1 l2 n2,
  exists l n,
    run_updates LanguageCrossEntropyLoss.update bs
      (World (LanguageCrossEntropyLoss.Build l2 n2 r) m)
    = World (LanguageCrossEntropyLoss.Build l n r) m /\
    run_updates LanguageCrossEntropyLoss.update bs
      (World (LanguageCrossEntropyLoss.Build (fadd l1 l2) (add64 n1 n2) r) m)
    = World (LanguageCrossEntropyLoss.Build (fadd l1 l) (add64 n1 n) r) m.
Proof.
  induction bs as [|[o t] bs IH]; intros l1 n1 l2 n2; simpl.
  - eauto.
  - destruct (LanguageCrossEntropyLoss_update_cases r m o t)
      as [E|(dl & dn & E)]; rewrite !E.
    + apply IH.
    + rewrite add64_assoc, fadd_assoc. apply IH.
Qed.

Lemma LanguageCrossEntropyLoss_run_canonical r (m : gmap loc (pyobj F)) bs :
  forall l n, wrap64 n = n ->
  exists l' n',
    run_updates LanguageCrossEntropyLoss.update bs
      (World (LanguageCrossEntropyLoss.Build l n r) m)
    = World (LanguageCrossEntropyLoss.Build l' n' r) m /\
    wrap64 n' = n'.
Proof.
  induction bs as [|[o t] bs IH]; intros l n Hn; simpl.
  - eauto.
  - destruct (LanguageCrossEntropyLoss_update_cases r m o t)
      as [E|(dl & dn & E)]; rewrite E.
    + by apply IH.
    + apply IH; apply add64_canonical.
Qed.

Lemma LanguageCrossEntropyLoss_merge (m : gmap loc (pyobj F)) bs1 bs2 :
  let init := World LanguageCrossEntropyLoss.__init__ m in
  let w1 := run_updates LanguageCrossEntropyLoss.update bs1 init in
  let w2 := run_updates LanguageCrossEntropyLoss.update bs2 init in
  let w := run_updates LanguageCrossEntropyLoss.update (bs1 ++ bs2) init in
  exists s, merge_LanguageCrossEntropyLoss (self w1) (self w2) = Some s /\
            World s m = w.
Proof.
  intros init w1 w2 w. subst w. rewrite run_updates_app. fold w1.
  unfold init, LanguageCrossEntropyLoss.__init__ in *.
  set (r := {[ "sum_loss" := Sum; "total_batches" := Sum ]}
         : gmap string reduce_fx) in *.
  destruct (LanguageCrossEntropyLoss_run_canonical r m bs1 fzero 0 eq_refl)
    as (l1 & n1 & E1 & Hn1).
  destruct (LanguageCrossEntropyLoss_run_shift r m bs2 l1 n1 fzero 0)
    as (l2 & n2 & E2 & E12).
  rewrite add64_0_r, fadd_0_r in E12 by done.
  subst w1 w2. rewrite E1, E2, E12. simpl.
  eexists. split; [|reflexivity]. reflexivity.
Qed.
End LossMerge.

Section LossMergeCounts.
Context {F : Type} `{FloatOps F} `{Externals F}.

Lemma CrossEntropyLoss_run_total V ign lf r (m : gmap loc (pyobj F)) bs :
  forall l l' n1 n2,
  exists la lb n,
    run_updates CrossEntropyLoss.update bs
      (World (CrossEntropyLoss.Build V ign lf l n2 r) m)
    = World (CrossEntropyLoss.Build V ign lf la n r) m /\
    run_updates CrossEntropyLoss.update bs
      (World (CrossEntropyLoss.Build V ign lf l' (add64 n1 n2) r) m)
    = World (CrossEntropyLoss.Build V ign lf lb (add64 n1 n) r) m.
Proof.
  induction bs as [|[o t] bs IH]; intros l l' n1 n2; simpl.
  - eauto.
  - destruct (CrossEntropyLoss_update_cases V ign lf r m o t)
      as [E|(dl & dn & E)]; rewrite !E.
    + apply IH.
    + rewrite add64_assoc. apply IH.
Qed.

Lemma CrossEntropyLoss_merge_total V ign (m : gmap loc (pyobj F)) bs1 bs2 :
  let init := World (CrossEntropyLoss.__init__ V ign) m in
  let w1 := run_updates CrossEntropyLoss.update bs1 init in
  let w2 := run_updates CrossEntropyLoss.update bs2 init in
  exists s,
    merge_CrossEntropyLoss (self w1) (self w2) = Some s /\
    CrossEntropyLoss.total_batches s =
    CrossEntropyLoss.total_batches
      (self (run_updates CrossEntropyLoss.update (bs1 ++ bs2) init)) /\
    CrossEntropyLoss.sum_loss s =
    fadd (CrossEntropyLoss.sum_loss (self w1)) (CrossEntropyLoss.sum_loss (self w2)).
Proof.
  intros init w1 w2. rewrite run_updates_app. fold w1.
  unfold init, CrossEntropyLoss.__init__ in *.
  set (r := {[ "sum_loss" := Sum; "total_batches" := Sum ]}
         : gmap string reduce_fx) in *.
  set (lf := CrossEntropyLoss.LossModule ign "sum") in *.
  destruct (CrossEntropyLoss_run_canonical V ign lf r m bs1 fzero 0 eq_refl)
    as (l1 & n1 & E1 & Hn1).
  destruct (CrossEntropyLoss_run_total V ign lf r m bs2 fzero l1 n1 0)
    as (la & lb & n & E2 & E12).
  rewrite add64_0_r in E12 by done.
  subst w1 w2. rewrite E1, E2, E12. simpl.
  eexists. split; [reflexivity|]. done.
Qed.

Lemma LanguageCrossEntropyLoss_run_total r (m : gmap loc (pyobj F)) bs :
  forall l l' n1 n2,
  exists la lb n,
    run_updates LanguageCrossEntropyLoss.update bs
      (World (LanguageCrossEntropyLoss.Build l n2 r) m)
    = World (LanguageCrossEntropyLoss.Build la n r) m /\
    run_updates LanguageCrossEntropyLoss.update bs
      (World (LanguageCrossEntropyLoss.Build l' (add64 n1 n2) r) m)
    = World (LanguageCrossEntropyLoss.Build lb (add64 n1 n) r) m.
Proof.
  induction bs as [|[o t] bs IH]; intros l l' n1 n2; simpl.
  - eauto.
  - destruct (LanguageCrossEntropyLoss_update_cases r m o t)
      as [E|(dl & dn & E)]; rewrite !E.
    + apply IH.
    + rewrite add64_assoc. apply IH.
Qed.

Lemma LanguageCrossEntropyLoss_merge_total (m : gmap loc (pyobj F)) bs1 bs2 :
  let init := World LanguageCrossEntropyLoss.__init__ m in
  let w1 := run_updates LanguageCrossEntropyLoss.update bs1 init in
  let w2 := run_updates LanguageCrossEntropyLoss.update bs2 init in
  exists s,
    merge_LanguageCrossEntropyLoss (self w1) (self w2) = Some s /\
    LanguageCrossEntropyLoss.total_batches s =
    LanguageCrossEntropyLoss.total_batches
      (self (run_updates LanguageCrossEntropyLoss.update (bs1 ++ bs2) init)) /\
    LanguageCrossEntropyLoss.sum_loss s =
    fadd (LanguageCrossEntropyLoss.sum_loss (self w1))
         (LanguageCrossEntropyLoss.sum_loss (self w2)).
Proof.
  intros init w1 w2. rewrite run_updates_app. fold w1.
  unfold init, LanguageCrossEntropyLoss.__init__ in *.
  set (r := {[ "sum_loss" := Sum; "total_batches" := Sum ]}
         : gmap string reduce_fx) in *.
  destruct (LanguageCrossEntropyLoss_run_canonical r m bs1 fzero 0 eq_refl)
    as (l1 & n1 & E1 & Hn1).
  destruct (LanguageCrossEntropyLoss_run_total r m bs2 fzero l1 n1 0)
    as (la & lb & n & E2 & E12).
  rewrite add64_0_r in E12 by done.
  subst w1 w2. rewrite E1, E2, E12. simpl.
  eexists. split; [reflexivity|]. done.
Qed.
End LossMergeCounts.

Section BinaryF1ScoreMerge.
Context {F : Type} `{FloatOps F} `{Externals F}.

Lemma BinaryF1Score_run r (m : gmap loc (pyobj F)) bs :
  forall ps ls,
    run_updates BinaryF1Score.update bs (World (BinaryF1Score.Build ps ls r) m)
    = World (BinaryF1Score.Build (ps ++ map fst bs) (ls ++ map snd bs) r) m.
Proof.
  induction bs as [|[o t] bs IH]; intros ps ls; simpl.
  - by rewrite !app_nil_r.
  - unfold exec at 1. simpl. rewrite IH. by rewrite <- !app_assoc.
Qed.

Lemma BinaryF1Score_merge (m : gmap loc (pyobj F)) bs1 bs2 :
  let init := World BinaryF1Score.__init__ m in
  let w1 := run_updates BinaryF1Score.update bs1 init in
  let w2 := run_updates BinaryF1Score.update bs2 init in
  let w := run_updates BinaryF1Score.update (bs1 ++ bs2) init in
  exists s, merge_BinaryF1Score (self w1) (self w2) = Some s /\
            World s m = w.
Proof.
  intros init w1 w2 w. subst w w1 w2.
  unfold init, BinaryF1Score.__init__.
  rewrite !BinaryF1Score_run. simpl.
  eexists. split; [reflexivity|]. by rewrite !map_app.
Qed.
End BinaryF1ScoreMerge.

Section WorkersMerge.
Context {F : Type} `{FloatOps F} `{Externals F}.

(** C6 (as the code has it). Two workers start from fresh instances of
    the same metric and see the batch sequences [bs1] and [bs2]; a single
    instance sees [bs1 ++ bs2].  Merging the workers' accumulators field
    by field with the declared rule (sum for [correct], [total],
    [sum_loss] and [total_batches], concatenation for [predictions] and
    [labels]) gives, for [MaskedAccuracy] and [BinaryF1Score], a state on
    which [compute()] returns what it returns on the single instance.
    For the metrics that accumulate a float loss, the merged
    [total_batches] is that of the single instance and the merged
    [sum_loss] is the float sum of the two workers' sums; [compute()]
    agrees with the single instance when these sums are exact (addition
    associative, zero neutral). *)
Theorem merged_workers_compute_as_pooled
    (m : gmap loc (pyobj F)) (bs1 bs2 : list (loc * loc)) :
  (forall ign,
     let init := World (MaskedAccuracy.__init__ ign) m in
     exists s,
       merge_MaskedAccuracy
         (self (run_updates MaskedAccuracy.update bs1 init))
         (self (run_updates MaskedAccuracy.update bs2 init)) = Some s /\
       outcome MaskedAccuracy.compute (World s m) =
       outcome MaskedAccuracy.compute
         (run_updates MaskedAccuracy.update (bs1 ++ bs2) init)) /\
  (let init := World BinaryF1Score.__init__ m in
   exists s,
     merge_BinaryF1Score
       (self (run_updates BinaryF1Score.update bs1 init))
       (self (run_updates BinaryF1Score.update bs2 init)) = Some s /\
     outcome BinaryF1Score.compute (World s m) =
     outcome BinaryF1Score.compute
       (run_updates BinaryF1Score.update (bs1 ++ bs2) init)) /\
  (forall V ign,
     let init := World (CrossEntropyLoss.__init__ V ign) m in
     let w1 := run_updates CrossEntropyLoss.update bs1 init in
     let w2 := run_updates CrossEntropyLoss.update bs2 init in
     exists s,
       merge_CrossEntropyLoss (self w1) (self w2) = Some s /\
       CrossEntropyLoss.total_batches s =
       CrossEntropyLoss.total_batches
         (self (run_updates CrossEntropyLoss.update (bs1 ++ bs2) init)) /\
       CrossEntropyLoss.sum_loss s =
       fadd (CrossEntropyLoss.sum_loss (self w1))
            (CrossEntropyLoss.sum_loss (self w2))) /\
  (let init := World LanguageCrossEntropyLoss.__init__ m in
   let w1 := run_updates LanguageCrossEntropyLoss.update bs1 init in
   let w2 := run_updates LanguageCrossEntropyLoss.update bs2 init in
   exists s,
     merge_LanguageCrossEntropyLoss (self w1) (self w2) = Some s /\
     LanguageCrossEntropyLoss.total_batches s =
     LanguageCrossEntropyLoss.total_batches
       (self (run_updates LanguageCrossEntropyLoss.update (bs1 ++ bs2) init)) /\
     LanguageCrossEntropyLoss.sum_loss s =
     fadd (LanguageCrossEntropyLoss.sum_loss (self w1))
          (LanguageCrossEntropyLoss.sum_loss (self w2))) /\
  ((forall a b c : F, fadd (fadd a b) c = fadd a (fadd b c)) ->
   (forall a : F, fadd a fzero = a) ->
   (forall V ign,
      let init := World (CrossEntropyLoss.__init__ V ign) m in
      exists s,
        merge_CrossEntropyLoss
          (self (run_updates CrossEntropyLoss.update bs1 init))
          (self (run_updates CrossEntropyLoss.update bs2 init)) = Some s /\
        outcome CrossEntropyLoss.compute (World s m) =
        outcome CrossEntropyLoss.compute
          (run_updates CrossEntropyLoss.update (bs1 ++ bs2) init)) /\
   (let init := World LanguageCrossEntropyLoss.__init__ m in
    exists s,
      merge_LanguageCrossEntropyLoss
        (self (run_updates LanguageCrossEntropyLoss.update bs1 init))
        (self (run_updates LanguageCrossEntropyLoss.update bs2 init)) = Some s /\
      outcome LanguageCrossEntropyLoss.compute (World s m) =
      outcome LanguageCrossEntropyLoss.compute
        (run_updates LanguageCrossEntropyLoss.update (bs1 ++ bs2) init)) /\
   (let init := World Perplexity.__init__ m in
    exists s,
      merge_LanguageCrossEntropyLoss
        (self (run_updates Perplexity.update bs1 init))
        (self (run_updates Perplexity.update bs2 init)) = Some s /\
      outcome Perplexity.compute (World s m) =
      outcome Perplexity.compute
        (run_updates Perplexity.update (bs1 ++ bs2) init))).
Proof.
  split; [|split; [|split; [|split]]].
  - intros ign init.
    destruct (MaskedAccuracy_merge ign m bs1 bs2) as (s & Hs & E).
    exists s. split; [exact Hs|]. by rewrite E.
  - intros init.
    destruct (BinaryF1Score_merge m bs1 bs2) as (s & Hs & E).
    exists s. split; [exact Hs|]. by rewrite E.
  - intros V ign. apply CrossEntropyLoss_merge_total.
  - apply LanguageCrossEntropyLoss_merge_total.
  - intros fadd_assoc fadd_0_r. split; [|split].
    + intros V ign init.
      destruct (CrossEntropyLoss_merge fadd_assoc fadd_0_r V ign m bs1 bs2)
        as (s & Hs & E).
      exists s. split; [exact Hs|]. by rewrite E.
    + intros init.
      destruct (LanguageCrossEntropyLoss_merge fadd_assoc fadd_0_r m bs1 bs2)
        as (s & Hs & E).
      exists s. split; [exact Hs|]. by rewrite E.
    + intros init. subst init. rewrite !Perplexity_run_updates.
      destruct (LanguageCrossEntropyLoss_merge fadd_assoc fadd_0_r m bs1 bs2)
        as (s & Hs & E).
      exists s. split; [exact Hs|]. by rewrite E.
Qed.
End WorkersMerge.

(** ** The statements on concrete batches *)

(** C3. Handed the mapping [{'logits': scores}], a form of model output
    that its signature and docstring admit,
    [CrossEntropyLoss.update] stops at [assert isinstance(output, Tensor)]
    with an AssertionError, while [LanguageCrossEntropyLoss.update]
    accepts the same output with the same target and returns. *)
Lemma CrossEntropyLoss_update_rejects_mapping :
  Examples.store !! 6%nat = Some (PMapping {[ "logits" := Examples.scores ]}) /\
  CrossEntropyLoss.update 6%nat 4%nat
    (World (CrossEntropyLoss.__init__ 2 (Some (-100))) Examples.store)
  = (Raise AssertionError,
     World (CrossEntropyLoss.__init__ 2 (Some (-100))) Examples.store) /\
  outcome (LanguageCrossEntropyLoss.update 6%nat 4%nat)
    (World LanguageCrossEntropyLoss.__init__ Examples.store)
  = Ok tt.
Proof. repeat split. Qed.

(** X14 on the concrete store: a mapping that carries a ready loss, and an
    object that is neither a mapping nor a tensor. *)
Lemma update_output_forms_witness :
  Examples.store !! 7%nat
    = Some (PMapping {[ "loss" := Examples.loss2; "logits" := Examples.scores ]}) /\
  LanguageCrossEntropyLoss.update 7%nat 4%nat
    (World LanguageCrossEntropyLoss.__init__ Examples.store)
  = (Ok tt,
     World (accumulated LanguageCrossEntropyLoss.__init__ (Rational.of_Z 2))
       Examples.store) /\
  Examples.store !! 8%nat = Some PNone /\
  LanguageCrossEntropyLoss.update 8%nat 4%nat
    (World LanguageCrossEntropyLoss.__init__ Examples.store)
  = (Raise UnsupportedOutput,
     World LanguageCrossEntropyLoss.__init__ Examples.store).
Proof.
  split; [reflexivity|]. split; [|split; [reflexivity|]].
  - eapply (proj1 (update_output_forms Examples.store 7%nat 4%nat _ eq_refl));
      reflexivity.
  - apply (proj1 (proj2 (proj2 (proj2
             (update_output_forms Examples.store 8%nat 4%nat _ eq_refl)))));
      reflexivity.
Defined.

(** C5 on the concrete store: four predictions, and two rows of scores,
    against a target of three entries. *)
Lemma update_shape_checks_witness :
  MaskedAccuracy.update 1%nat 5%nat
    (World (MaskedAccuracy.__init__ (Some (-100))) Examples.store)
  = (Raise AssertionError, World (MaskedAccuracy.__init__ (Some (-100))) Examples.store) /\
  CrossEntropyLoss.update 3%nat 5%nat
    (World (CrossEntropyLoss.__init__ 2 (Some (-100))) Examples.store)
  = (Raise ValueError,
     World (CrossEntropyLoss.__init__ 2 (Some (-100))) Examples.store).
Proof.
  split.
  - eapply (proj1 (proj1 (update_shape_checks Examples.store 1%nat 5%nat)
                     _ _ _ _ eq_refl eq_refl eq_refl)).
    simpl. congruence.
  - apply (proj1 (proj2 (update_shape_checks Examples.store 3%nat 5%nat))
             (CrossEntropyLoss.__init__ 2 (Some (-100))) (-100)
             Examples.scores Examples.scores 2%nat 2%nat Examples.long_target);
      [reflexivity|lia|reflexivity..|].
    simpl. lia.
Defined.

(** C7 on the concrete store, with [ignore = -100]. *)
Lemma masked_accuracy_two_thirds_witness :
  (-100 <> 1 /\ -100 <> 2) /\
  outcome MaskedAccuracy.compute
    (exec (MaskedAccuracy.update 1%nat 2%nat)
       (World (MaskedAccuracy.__init__ (Some (-100))) Examples.store))
  = Ok (fdiv (of_int 2) (of_int 3)).
Proof.
  split; [split; lia|].
  apply (masked_accuracy_two_thirds (-100) Examples.store 1%nat 2%nat
           (PFloat Examples.logits)); [lia|lia|lia|reflexivity..].
Defined.

(** C9 on the concrete store: two rows, the first with target 0. *)
Lemma ignore_index_zero_counts_every_target_witness :
  CrossEntropyLoss.update 3%nat 4%nat
    (World (CrossEntropyLoss.__init__ 2 (Some 0)) Examples.store)
  = (Ok tt,
     World (CrossEntropyLoss.Build 2 (Some 0)
              (CrossEntropyLoss.LossModule (Some 0) "sum")
              (fadd fzero (fadd fzero (Rational.neg_score (Rational.row [2; 5]) 1)))
              (add64 0 2)
              (CrossEntropyLoss.reductions (CrossEntropyLoss.__init__ 2 (Some 0))))
       Examples.store).
Proof.
  eapply (proj1 (proj1 (ignore_index_zero_counts_every_target Examples.store
                          3%nat 4%nat 2 fzero 0 _ Examples.scores _
                          Examples.classes eq_refl eq_refl eq_refl) _ _)).
  Unshelve. reflexivity.
Defined.

(** C10 on a module in evaluation mode, and on one in training mode with
    [drop_prob = 1/10], where the call goes to [dropblock]. *)
Lemma forward_identity_witness :
  let w := World (DropBlock.Build false Examples.tenth 7 true) Examples.store in
  let w' := World (DropBlock.__init__ Examples.tenth 7 true) Examples.store in
  DropBlock.training (self w) = false /\
  DropBlock.forward Examples.dropblock 1%nat w = (Ok 1%nat, w) /\
  DropBlock.forward Examples.dropblock 1%nat w' = (Raise RuntimeError, w').
Proof.
  intros w w'. split; [reflexivity|]. split.
  - apply (proj1 (forward_identity_unless_training_and_drop_prob
                    Examples.dropblock w 1%nat)).
    left. reflexivity.
  - rewrite (proj2 (forward_identity_unless_training_and_drop_prob
                      Examples.dropblock w' 1%nat)); reflexivity.
Defined.

(** C6 on the concrete store: two workers of a [LanguageCrossEntropyLoss]
    over exact rationals, one batch with a ready loss and one with logits. *)
Lemma merged_workers_witness :
  (forall a b c : Qc, fadd (fadd a b) c = fadd a (fadd b c)) /\
  (forall a : Qc, fadd a fzero = a) /\
  exists s,
    merge_LanguageCrossEntropyLoss
      (self (run_updates LanguageCrossEntropyLoss.update [(7%nat, 4%nat)]
               (World LanguageCrossEntropyLoss.__init__ Examples.store)))
      (self (run_updates LanguageCrossEntropyLoss.update
               [(3%nat, 4%nat); (8%nat, 4%nat)]
               (World LanguageCrossEntropyLoss.__init__ Examples.store)))
    = Some s /\
    outcome (LanguageCrossEntropyLoss.compute (F:=Qc)) (World s Examples.store) =
    outcome LanguageCrossEntropyLoss.compute
      (run_updates LanguageCrossEntropyLoss.update
         ([(7%nat, 4%nat)] ++ [(3%nat, 4%nat); (8%nat, 4%nat)])
         (World LanguageCrossEntropyLoss.__init__ Examples.store)).
Proof.
  assert (forall a b c : Qc, fadd (fadd a b) c = fadd a (fadd b c)) as Hassoc
    by (intros a b c; symmetry; apply Qcplus_assoc).
  assert (forall a : Qc, fadd a fzero = a) as Hzero
    by (intros a; apply Qcplus_0_r).
  split; [exact Hassoc|]. split; [exact Hzero|].
  apply (proj1 (proj2 (proj2 (proj2 (proj2 (proj2
           (merged_workers_compute_as_pooled
              Examples.store [(7%nat, 4%nat)]
              [(3%nat, 4%nat); (8%nat, 4%nat)])))) Hassoc Hzero))).
Defined.

(** C6, the claim as stated fails: in float32 arithmetic, one worker sees
    the losses 2^25 and 0 and the other the loss 2 twice.  The single
    instance adds 2 to 2^25 twice, each time rounding back to 2^25, and
    reports 2^25 / 4 = 8388608; the merged state holds 2^25 + 4 and
    reports 8388609. *)
Lemma merged_sum_loss_rounds_differently :
  let init := World LanguageCrossEntropyLoss.__init__ Binary32.store in
  let w1 := run_updates LanguageCrossEntropyLoss.update
              [(1%nat, 4%nat); (2%nat, 4%nat)] init in
  let w2 := run_updates LanguageCrossEntropyLoss.update
              [(3%nat, 4%nat); (3%nat, 4%nat)] init in
  let pooled := run_updates LanguageCrossEntropyLoss.update
                  ([(1%nat, 4%nat); (2%nat, 4%nat)]
                   ++ [(3%nat, 4%nat); (3%nat, 4%nat)]) init in
  exists s,
    merge_LanguageCrossEntropyLoss (self w1) (self w2) = Some s /\
    outcome LanguageCrossEntropyLoss.compute (World s Binary32.store)
    = Ok (Binary32.Value (inject_Z 8388609)) /\
    outcome LanguageCrossEntropyLoss.compute pooled
    = Ok (Binary32.Value (inject_Z 8388608)).
Proof.
  intros init w1 w2 pooled. eexists. split; [reflexivity|].
  split; vm_compute; reflexivity.
Qed.

(** * Further properties of the metrics *)

(** ** What one batch adds to MaskedAccuracy *)

Section MaskedAccuracyCounts.
Context {F : Type} `{FloatOps F}.

Lemma count_true_cons b bs :
  count_true (b :: bs) = (if b then 1 else 0) + count_true bs.
Proof.
  unfold count_true. destruct b.
  - rewrite filter_cons_True by done. simpl length. lia.
  - rewrite filter_cons_False by done. lia.
Qed.

Lemma count_cons {A} (f : A -> bool) x l :
  count f (x :: l) = (if f x then 1 else 0) + count f l.
Proof. unfold count. simpl. destruct (f x); simpl; lia. Qed.

Lemma count_true_map {A} (f : A -> bool) l : count_true (map f l) = count f l.
Proof.
  induction l as [|x l IH]; [reflexivity|].
  simpl. by rewrite count_true_cons, count_cons, IH.
Qed.

Lemma count_bounds {A} (f : A -> bool) l : 0 <= count f l <= Z.of_nat (length l).
Proof.
  induction l as [|x l IH]; [done|].
  rewrite count_cons. simpl length. destruct (f x); lia.
Qed.

(** Selecting by the mask and comparing afterwards counts the positions
    that are kept and agree. *)
Lemma masked_hits ign (pd : list Z) (td : list (scalar F)) :
  count_true (zip_eqb (select_data (map IntV pd) (map (kept ign) td))
                      (select_data td (map (kept ign) td)))
  = count (hit ign) (zip pd td).
Proof.
  revert pd. induction td as [|t td IH]; intros [|p pd]; simpl; try done.
  rewrite count_cons. unfold hit at 1. simpl.
  destruct (kept ign t); simpl.
  - by rewrite count_true_cons, IH.
  - by rewrite IH.
Qed.

Lemma hits_le_kept ign (pd : list Z) (td : list (scalar F)) :
  count (hit ign) (zip pd td) <= count (kept ign) td.
Proof.
  revert pd. induction td as [|t td IH]; intros [|p pd].
  - done.
  - done.
  - apply count_bounds.
  - change (zip (p :: pd) (t :: td)) with ((p, t) :: zip pd td).
    rewrite !count_cons. unfold hit at 1. cbn [fst snd]. specialize (IH pd).
    destruct (kept ign t), (scalar_eqb (IntV p) t); cbv [andb]; lia.
Qed.

(** Comparing without a mask counts the positions that agree. *)
Lemma unmasked_hits (pd : list Z) (td : list (scalar F)) :
  count_true (zip_eqb (map IntV pd) td)
  = count (fun pt : Z * scalar F => scalar_eqb (IntV pt.1) pt.2) (zip pd td).
Proof.
  revert td. induction pd as [|p pd IH]; intros [|t td]; simpl; try done.
  by rewrite count_true_cons, count_cons, IH.
Qed.

(** [update] up to the comparison with [ignore_index]. *)
Lemma MaskedAccuracy_update_checked
    (s : MaskedAccuracy.t) (m : gmap loc (pyobj F)) (preds target : loc)
    (p tg : pyobj F) (pa : tensor Z) (td : tensor (scalar F)) :
  m !! preds = Some p -> MaskedAccuracy.argmax_obj p = Ok pa ->
  m !! target = Some tg -> MaskedAccuracy.target_obj tg = Ok td ->
  shape pa = shape td ->
  MaskedAccuracy.update preds target (World s m) =
  match MaskedAccuracy.ne_index td (MaskedAccuracy.ignore_index s) with
  | Ok mask =>
      let hits := torch_sum (tensor_eq (MaskedAccuracy.index_by (longs pa) mask)
                               (MaskedAccuracy.index_by td mask)) in
      let s' := MaskedAccuracy.Build (MaskedAccuracy.ignore_index s)
                  (add64 (MaskedAccuracy.correct s) hits)
                  (MaskedAccuracy.total s) (MaskedAccuracy.reductions s) in
      match MaskedAccuracy.mask_sum mask with
      | Ok n =>
          (Ok tt,
           World (MaskedAccuracy.Build (MaskedAccuracy.ignore_index s)
                    (add64 (MaskedAccuracy.correct s) hits)
                    (add64 (MaskedAccuracy.total s) n)
                    (MaskedAccuracy.reductions s)) m)
      | Raise e => (Raise e, World s' m)
      end
  | Raise e => (Raise e, World s m)
  end.
Proof.
  intros Hp Ha Ht Htd Hs.
  unfold MaskedAccuracy.update, bind, deref, lift.
  cbn -[MaskedAccuracy.ne_index MaskedAccuracy.index_by MaskedAccuracy.mask_sum].
  rewrite Hp.
  cbn -[MaskedAccuracy.ne_index MaskedAccuracy.index_by MaskedAccuracy.mask_sum].
  rewrite Ha.
  cbn -[MaskedAccuracy.ne_index MaskedAccuracy.index_by MaskedAccuracy.mask_sum].
  rewrite Ht.
  cbn -[MaskedAccuracy.ne_index MaskedAccuracy.index_by MaskedAccuracy.mask_sum].
  rewrite Htd.
  cbn -[MaskedAccuracy.ne_index MaskedAccuracy.index_by MaskedAccuracy.mask_sum].
  unfold shape_eqb. rewrite bool_decide_eq_true_2 by done.
  cbn -[MaskedAccuracy.ne_index MaskedAccuracy.index_by MaskedAccuracy.mask_sum].
  destruct (MaskedAccuracy.ne_index td (MaskedAccuracy.ignore_index s))
    as [mask|e]; [|done].
  cbn -[MaskedAccuracy.index_by MaskedAccuracy.mask_sum].
  by destruct (MaskedAccuracy.mask_sum mask).
Qed.

(** [update] with an int64 [ignore_index], on shapes that agree. *)
Lemma MaskedAccuracy_update_int
    (ign c n : Z) (r : gmap string reduce_fx)
    (m : gmap loc (pyobj F)) (preds target : loc)
    (p tg : pyobj F) (pa : tensor Z) (td : tensor (scalar F)) :
  m !! preds = Some p -> MaskedAccuracy.argmax_obj p = Ok pa ->
  m !! target = Some tg -> MaskedAccuracy.target_obj tg = Ok td ->
  shape pa = shape td ->
  in_int64 ign = true ->
  MaskedAccuracy.update preds target
    (World (MaskedAccuracy.Build (Some ign) c n r) m) =
  (Ok tt,
   World (MaskedAccuracy.Build (Some ign)
            (add64 c (count (hit ign) (zip (data pa) (data td))))
            (add64 n (count (kept ign) (data td))) r) m).
Proof.
  intros Hp Ha Ht Htd Hs Hi.
  rewrite (MaskedAccuracy_update_checked _ m preds target p tg pa td) by done.
  cbn [MaskedAccuracy.ignore_index MaskedAccuracy.ne_index].
  unfold tensor_ne. rewrite Hi.
  cbn [result_map MaskedAccuracy.mask_sum MaskedAccuracy.index_by
       MaskedAccuracy.correct MaskedAccuracy.total MaskedAccuracy.reductions
       MaskedAccuracy.ignore_index].
  unfold torch_sum, tensor_eq, masked_select, ne_mask, longs. cbn [data shape].
  fold (kept ign). by rewrite masked_hits, count_true_map.
Qed.

(** X1. When the shapes agree and [ignore_index] is an int64 value,
    [MaskedAccuracy.update] returns, adds to [total] the number of target
    entries different from [ignore_index] and to [correct] the number of
    positions whose target is such an entry and equals the predicted
    class. *)
Theorem MaskedAccuracy_update_counts
    (s : MaskedAccuracy.t) (m : gmap loc (pyobj F)) (preds target : loc)
    (p tg : pyobj F) (pa : tensor Z) (td : tensor (scalar F)) (ign : Z) :
  m !! preds = Some p -> MaskedAccuracy.argmax_obj p = Ok pa ->
  m !! target = Some tg -> MaskedAccuracy.target_obj tg = Ok td ->
  shape pa = shape td ->
  MaskedAccuracy.ignore_index s = Some ign -> - 2 ^ 63 <= ign < 2 ^ 63 ->
  MaskedAccuracy.update preds target (World s m) =
  (Ok tt,
   World (MaskedAccuracy.Build (Some ign)
            (add64 (MaskedAccuracy.correct s)
               (count (hit ign) (zip (data pa) (data td))))
            (add64 (MaskedAccuracy.total s) (count (kept ign) (data td)))
            (MaskedAccuracy.reductions s)) m).
Proof.
  intros Hp Ha Ht Htd Hs Hign Hrange.
  destruct s as [i c n r]. cbn in Hign. subst i.
  apply (MaskedAccuracy_update_int ign c n r m preds target p tg pa td);
    try done.
  by apply in_int64_range.
Qed.

(** X15. A [MaskedAccuracy] built with [ignore_index = None] cannot
    complete an [update]: when the shapes agree, [target != None] is the
    Python bool [True], every position is compared, the number of
    positions where the predicted class is the target is added to
    [correct], and then [mask.sum()] raises an AttributeError with
    [total] left as it was. *)
Theorem MaskedAccuracy_update_without_ignore_index
    (s : MaskedAccuracy.t) (m : gmap loc (pyobj F)) (preds target : loc)
    (p tg : pyobj F) (pa : tensor Z) (td : tensor (scalar F)) :
  m !! preds = Some p -> MaskedAccuracy.argmax_obj p = Ok pa ->
  m !! target = Some tg -> MaskedAccuracy.target_obj tg = Ok td ->
  shape pa = shape td ->
  MaskedAccuracy.ignore_index s = None ->
  MaskedAccuracy.update preds target (World s m) =
  (Raise AttributeError,
   World (MaskedAccuracy.Build None
            (add64 (MaskedAccuracy.correct s)
               (count (fun pt : Z * scalar F => scalar_eqb (IntV pt.1) pt.2)
                  (zip (data pa) (data td))))
            (MaskedAccuracy.total s)
            (MaskedAccuracy.reductions s)) m).
Proof.
  intros Hp Ha Ht Htd Hs Hign.
  rewrite (MaskedAccuracy_update_checked s m preds target p tg pa td) by done.
  rewrite Hign.
  cbn [MaskedAccuracy.ne_index MaskedAccuracy.mask_sum MaskedAccuracy.index_by].
  unfold torch_sum, tensor_eq, longs. cbn [data shape].
  by rewrite unmasked_hits.
Qed.

End MaskedAccuracyCounts.

(** ** Invariants of MaskedAccuracy over a run *)

Lemma wrap64_small z : - 2 ^ 63 <= z < 2 ^ 63 -> wrap64 z = z.
Proof. intros Hz. unfold wrap64. rewrite Z.mod_small; lia. Qed.

Lemma add64_comm_r a b c : add64 (add64 a b) c = add64 (add64 a c) b.
Proof. rewrite !add64_assoc. unfold add64 at 2 4. by rewrite (Z.add_comm b c). Qed.

Section MaskedAccuracyRuns.
Context {F : Type} `{FloatOps F}.

Lemma target_obj_length (tg : pyobj F) td :
  MaskedAccuracy.target_obj tg = Ok td -> length (data td) = size_of tg.
Proof.
  destruct tg; simpl; intros [= <-]; simpl; by rewrite length_map.
Qed.

(** What one [update] adds is bounded by the size of the target. *)
Lemma MaskedAccuracy_update_delta_bounds (ign : Z) r (m : gmap loc (pyobj F)) o t K :
  (forall l ob, m !! l = Some ob -> (size_of ob <= K)%nat) ->
  (forall c n,
     exec (MaskedAccuracy.update o t)
       (World (MaskedAccuracy.Build (Some ign) c n r) m)
     = World (MaskedAccuracy.Build (Some ign) c n r) m) \/
  (exists dc dn, 0 <= dc <= dn /\ dn <= Z.of_nat K /\ forall c n,
     exec (MaskedAccuracy.update o t)
       (World (MaskedAccuracy.Build (Some ign) c n r) m)
     = World (MaskedAccuracy.Build (Some ign) (add64 c dc) (add64 n dn) r) m).
Proof.
  intros HK.
  destruct (m !! o) as [p|] eqn:Hp;
    [|left; intros c n; unfold exec, MaskedAccuracy.update, bind, deref;
      simpl; by rewrite Hp].
  destruct (MaskedAccuracy.argmax_obj p) as [pa|e] eqn:Ha;
    [|left; intros c n; unfold exec, MaskedAccuracy.update, bind, deref, lift;
      simpl; rewrite Hp; simpl; by rewrite Ha].
  destruct (m !! t) as [tg|] eqn:Ht;
    [|left; intros c n; unfold exec, MaskedAccuracy.update, bind, deref, lift;
      simpl; rewrite Hp; simpl; rewrite Ha; simpl; by rewrite Ht].
  destruct (MaskedAccuracy.target_obj tg) as [ta|e] eqn:Hta;
    [|left; intros c n; unfold exec, MaskedAccuracy.update, bind, deref, lift;
      simpl; rewrite Hp; simpl; rewrite Ha; simpl; rewrite Ht; simpl;
      by rewrite Hta].
  destruct (decide (shape pa = shape ta)) as [Hs|Hs];
    [|left; intros c n; unfold exec, MaskedAccuracy.update, bind, deref, lift;
      simpl; rewrite Hp; simpl; rewrite Ha; simpl; rewrite Ht; simpl;
      rewrite Hta; simpl; unfold shape_eqb; by rewrite bool_decide_eq_false_2].
  destruct (in_int64 ign) eqn:Hi.
  - right.
    exists (count (hit ign) (zip (data pa) (data ta))), (count (kept ign) (data ta)).
    split; [|split].
    + split; [apply count_bounds|apply hits_le_kept].
    + pose proof (count_bounds (kept ign) (data ta)) as Hb.
      rewrite (target_obj_length _ _ Hta) in Hb.
      specialize (HK _ _ Ht). lia.
    + intros c n. unfold exec.
      by rewrite (MaskedAccuracy_update_int ign c n r m o t p tg pa ta).
  - left. intros c n. unfold exec.
    rewrite (MaskedAccuracy_update_checked _ m o t p tg pa ta) by done.
    cbn [MaskedAccuracy.ignore_index MaskedAccuracy.ne_index].
    unfold tensor_ne. by rewrite Hi.
Qed.

Lemma MaskedAccuracy_run_bounds (ign : Z) r (m : gmap loc (pyobj F)) K bs :
  (forall l ob, m !! l = Some ob -> (size_of ob <= K)%nat) ->
  forall c n B,
    0 <= c <= n -> n <= B ->
    B + Z.of_nat (length bs) * Z.of_nat K < 2 ^ 63 ->
    exists c' n',
      run_updates MaskedAccuracy.update bs
        (World (MaskedAccuracy.Build (Some ign) c n r) m)
      = World (MaskedAccuracy.Build (Some ign) c' n' r) m /\
      0 <= c' <= n' /\ n' <= B + Z.of_nat (length bs) * Z.of_nat K.
Proof.
  intros HK. induction bs as [|[o t] bs IH]; intros c n B Hc Hn HB.
  - exists c, n. simpl. split; [done|]. lia.
  - simpl run_updates. simpl length in *.
    destruct (MaskedAccuracy_update_delta_bounds ign r m o t K HK)
      as [E|(dc & dn & Hd & HdK & E)]; rewrite E.
    + destruct (IH c n B Hc Hn) as (c' & n' & E' & ? & ?); [lia|].
      exists c', n'. split; [exact E'|]. lia.
    + unfold add64. rewrite !wrap64_small by lia.
      destruct (IH (c + dc) (n + dn) (B + Z.of_nat K)) as (c' & n' & E' & ? & ?);
        [lia..|].
      exists c', n'. split; [exact E'|]. lia.
Qed.

(** X2. From a fresh [MaskedAccuracy] whose [ignore_index] is a Python
    int, as long as the counters cannot overflow (the number of batches
    times the largest tensor of the store stays below 2^63), every run of
    updates keeps [0 <= correct <= total]: the accuracy never exceeds
    one. *)
Theorem MaskedAccuracy_correct_le_total
    (ign : Z) (m : gmap loc (pyobj F)) (K : nat) (bs : list (loc * loc)) :
  (forall l ob, m !! l = Some ob -> (size_of ob <= K)%nat) ->
  Z.of_nat (length bs) * Z.of_nat K < 2 ^ 63 ->
  let w := run_updates MaskedAccuracy.update bs
             (World (MaskedAccuracy.__init__ (Some ign)) m) in
  0 <= MaskedAccuracy.correct (self w) <= MaskedAccuracy.total (self w) /\
  MaskedAccuracy.total (self w) <= Z.of_nat (length bs) * Z.of_nat K.
Proof.
  intros HK Hlen w. subst w. unfold MaskedAccuracy.__init__.
  destruct (MaskedAccuracy_run_bounds ign
              {[ "correct" := Sum; "total" := Sum ]} m K bs HK 0 0 0)
    as (c' & n' & E & Hc & Hn); [lia..|].
  rewrite E. simpl. lia.
Qed.

(** X10. The order of the batches does not matter to [MaskedAccuracy]:
    any permutation of the same calls leaves the same state. *)
Theorem MaskedAccuracy_batch_order
    (bs bs' : list (loc * loc)) (w : world F MaskedAccuracy.t) :
  Permutation bs bs' ->
  run_updates MaskedAccuracy.update bs w
  = run_updates MaskedAccuracy.update bs' w.
Proof.
  intros HP. revert w.
  induction HP as [|b l l' _ IH|[o1 t1] [o2 t2] l|l l' l'' _ IH1 _ IH2];
    intros w.
  - reflexivity.
  - simpl. apply IH.
  - simpl. f_equal.
    destruct w as [[ign c n r] m].
    destruct (MaskedAccuracy_update_cases ign r m o1 t1)
               as [E1|[(dc1 & E1)|(dc1 & dn1 & E1)]],
             (MaskedAccuracy_update_cases ign r m o2 t2)
               as [E2|[(dc2 & E2)|(dc2 & dn2 & E2)]];
      rewrite ?E1, ?E2, ?E1; try reflexivity;
      rewrite (add64_comm_r c); try reflexivity.
    by rewrite (add64_comm_r n).
  - by rewrite IH1.
Qed.
End MaskedAccuracyRuns.

(** ** A failed update writes nothing *)

Section Atomicity.
Context {F : Type} `{FloatOps F} `{Externals F}.

Lemma atomic_bind_pure {S A B} (c : M F S A) (k : A -> M F S B) :
  preserves (fun w => w) c -> (forall a, atomic (k a)) -> atomic (bind c k).
Proof.
  intros Hc Hk w e. unfold outcome, exec, bind.
  specialize (Hc w). unfold exec in Hc.
  destruct (c w) as [[a|e'] w']; simpl in *; subst w'; [apply Hk|done].
Qed.

Lemma MaskedAccuracy_update_atomic preds target
    (w : world F MaskedAccuracy.t) e :
  MaskedAccuracy.ignore_index (self w) <> None ->
  outcome (MaskedAccuracy.update preds target) w = Raise e ->
  exec (MaskedAccuracy.update preds target) w = w.
Proof.
  destruct w as [[[v|] c n r] m]; intros Hv; [clear Hv|done].
  unfold outcome, exec, MaskedAccuracy.update, bind, deref, lift. simpl.
  destruct (m !! preds) as [p|]; [|done]. simpl.
  destruct (MaskedAccuracy.argmax_obj p) as [pa|]; [|done]. simpl.
  destruct (m !! target) as [tg|]; [|done]. simpl.
  destruct (MaskedAccuracy.target_obj tg) as [ta|]; [|done]. simpl.
  destruct (shape_eqb (shape pa) (shape ta)); [|done]. simpl.
  unfold tensor_ne. destruct (in_int64 v); [|done]. simpl. discriminate.
Qed.

Lemma CrossEntropyLoss_update_atomic output target :
  atomic (CrossEntropyLoss.update (F:=F) output target).
Proof.
  unfold CrossEntropyLoss.update.
  do 10 (apply atomic_bind_pure; [auto with frame|intros ?]).
  intros w e. unfold outcome. simpl. discriminate.
Qed.

Lemma counts_calls_bind {A B} r (m : gmap loc (pyobj F))
    (c : M F (LanguageCrossEntropyLoss.t F) A)
    (k : A -> M F (LanguageCrossEntropyLoss.t F) B) :
  store_only m c -> (forall a, counts_calls r m (k a)) ->
  counts_calls r m (bind c k).
Proof.
  intros [[a|e] Hc] Hk.
  - destruct (Hk a) as [(e & E)|(b & dl & E)];
      [left; exists e|right; exists b, dl];
      intros l n; unfold bind; rewrite Hc; apply E.
  - left. exists e. intros l n. unfold bind. by rewrite Hc.
Qed.

Lemma LanguageCrossEntropyLoss_accumulate_counts r (m : gmap loc (pyobj F))
    (loss : pyobj F) :
  counts_calls r m (bind (LanguageCrossEntropyLoss.iadd_sum_loss loss)
                      (fun _ => LanguageCrossEntropyLoss.iadd_total_batches 1)).
Proof.
  destruct loss as [[[|? ?] [|x [|? ?]]]|[[|? ?] [|x [|? ?]]]| | |];
    try (left; eexists; intros ? ?; reflexivity).
  - right. exists tt, x. reflexivity.
  - right. exists tt, (of_int x). reflexivity.
Qed.

Lemma LanguageCrossEntropyLoss_update_counts_calls r (m : gmap loc (pyobj F)) o t :
  counts_calls r m (LanguageCrossEntropyLoss.update o t).
Proof.
  unfold LanguageCrossEntropyLoss.update.
  apply counts_calls_bind; [apply store_only_deref|]. intros p.
  apply counts_calls_bind; [|apply LanguageCrossEntropyLoss_accumulate_counts].
  destruct (isinstance_Mapping p && LanguageCrossEntropyLoss.contains p "loss");
    [apply store_only_lift|].
  apply store_only_bind.
  - destruct (isinstance_Mapping p); [apply store_only_lift|].
    destruct (isinstance_Tensor p);
      [apply store_only_ret|apply store_only_raise].
  - intros logits. apply store_only_bind; [apply store_only_deref|].
    intros tg. apply store_only_lift.
Qed.

Lemma LanguageCrossEntropyLoss_update_atomic output target :
  atomic (LanguageCrossEntropyLoss.update (F:=F) output target).
Proof.
  intros [[l n r] m] e.
  destruct (LanguageCrossEntropyLoss_update_counts_calls r m output target)
    as [(e' & E)|(a & dl & E)]; unfold outcome, exec; rewrite E; simpl;
    [done|discriminate].
Qed.

(** X3. [update] is all or nothing: when a call to
    [CrossEntropyLoss.update], [LanguageCrossEntropyLoss.update] or
    [Perplexity.update] raises, no accumulator has been written, so the
    metric can go on with the next batch; the same holds of
    [MaskedAccuracy.update] when [ignore_index] is not [None]. *)
Theorem update_raises_before_writing (output target : loc) (e : exn) :
  (forall w : world F MaskedAccuracy.t,
     MaskedAccuracy.ignore_index (self w) <> None ->
     outcome (MaskedAccuracy.update output target) w = Raise e ->
     exec (MaskedAccuracy.update output target) w = w) /\
  (forall w : world F (CrossEntropyLoss.t F),
     outcome (CrossEntropyLoss.update output target) w = Raise e ->
     exec (CrossEntropyLoss.update output target) w = w) /\
  (forall w : world F (LanguageCrossEntropyLoss.t F),
     outcome (LanguageCrossEntropyLoss.update output target) w = Raise e ->
     exec (LanguageCrossEntropyLoss.update output target) w = w) /\
  (forall w : world F (Perplexity.t F),
     outcome (Perplexity.update output target) w = Raise e ->
     exec (Perplexity.update output target) w = w).
Proof.
  repeat apply conj.
  - intros w Hign Hw. by apply (MaskedAccuracy_update_atomic output target w e).
  - intros w Hw. by apply (CrossEntropyLoss_update_atomic output target w e).
  - intros w Hw.
    by apply (LanguageCrossEntropyLoss_update_atomic output target w e).
  - intros w Hw.
    by apply (LanguageCrossEntropyLoss_update_atomic output target w e).
Qed.
End Atomicity.

(** ** LanguageCrossEntropyLoss on mappings, and what it averages over *)

Section LanguageLoss.
Context {F : Type} `{FloatOps F} `{Externals F}.

(** X4. A mapping that contains neither ['loss'] nor ['logits'] is not
    reported as an unsupported type: [output['logits']] raises
    [KeyError('logits')], and nothing is written. *)
Theorem LanguageCrossEntropyLoss_update_missing_keys
    (s : LanguageCrossEntropyLoss.t F) (m : gmap loc (pyobj F))
    (output target : loc) (mp : gmap string (tensor F)) :
  m !! output = Some (PMapping mp) ->
  mp !! "loss" = None -> mp !! "logits" = None ->
  LanguageCrossEntropyLoss.update output target (World s m)
  = (Raise (KeyError "logits"), World s m).
Proof.
  intros Ho Hloss Hlogits.
  unfold LanguageCrossEntropyLoss.update, bind, deref, lift. simpl.
  rewrite Ho. simpl.
  rewrite bool_decide_eq_false_2 by (rewrite Hloss; by intros [? ?]).
  by rewrite Hlogits.
Qed.

(** X5. When the model output carries a ['loss'], the target is not looked
    at: the call does the same whatever [target] refers to, a reference to
    nothing included. *)
Theorem LanguageCrossEntropyLoss_update_ignores_target
    (w : world F (LanguageCrossEntropyLoss.t F))
    (output target target' : loc) (mp : gmap string (tensor F)) :
  mem w !! output = Some (PMapping mp) -> is_Some (mp !! "loss") ->
  LanguageCrossEntropyLoss.update output target w
  = LanguageCrossEntropyLoss.update output target' w.
Proof.
  intros Ho Hloss.
  unfold LanguageCrossEntropyLoss.update, bind, deref, lift.
  rewrite Ho. simpl.
  by rewrite bool_decide_eq_true_2.
Qed.

Lemma LanguageCrossEntropyLoss_run_counts r (m : gmap loc (pyobj F)) bs :
  forall l n,
    0 <= n -> n + Z.of_nat (length bs) < 2 ^ 63 ->
    LanguageCrossEntropyLoss.total_batches
      (self (run_updates LanguageCrossEntropyLoss.update bs
               (World (LanguageCrossEntropyLoss.Build l n r) m)))
    = n + count (fun b => is_ok (outcome (LanguageCrossEntropyLoss.update b.1 b.2)
                                   (World (LanguageCrossEntropyLoss.Build fzero 0 r) m)))
            bs.
Proof.
  induction bs as [|[o t] bs IH]; intros l n Hn Hlen.
  - unfold count. simpl. lia.
  - simpl run_updates. rewrite count_cons. simpl length in Hlen.
    pose proof (count_bounds
      (fun b => is_ok (outcome (LanguageCrossEntropyLoss.update b.1 b.2)
                         (World (LanguageCrossEntropyLoss.Build fzero 0 r) m))) bs).
    cbn [fst snd].
    destruct (LanguageCrossEntropyLoss_update_counts_calls r m o t)
      as [(e & E)|(a & dl & E)].
    + replace (exec (LanguageCrossEntropyLoss.update o t)
                 (World (LanguageCrossEntropyLoss.Build l n r) m))
        with (World (LanguageCrossEntropyLoss.Build l n r) m)
        by (unfold exec; by rewrite E).
      replace (outcome (LanguageCrossEntropyLoss.update o t)
                 (World (LanguageCrossEntropyLoss.Build fzero 0 r) m))
        with (Raise (A:=unit) e) by (unfold outcome; by rewrite E).
      rewrite IH by lia. cbn [is_ok]. cbv iota. lia.
    + replace (exec (LanguageCrossEntropyLoss.update o t)
                 (World (LanguageCrossEntropyLoss.Build l n r) m))
        with (World (LanguageCrossEntropyLoss.Build (fadd l dl) (add64 n 1) r) m)
        by (unfold exec; by rewrite E).
      replace (outcome (LanguageCrossEntropyLoss.update o t)
                 (World (LanguageCrossEntropyLoss.Build fzero 0 r) m))
        with (Ok a) by (unfold outcome; by rewrite E).
      unfold add64. rewrite wrap64_small by lia.
      rewrite IH by lia. cbn [is_ok]. cbv iota. lia.
Qed.

(** X9. [LanguageCrossEntropyLoss] averages over calls, not over examples:
    after a run from a fresh metric, [total_batches] is the number of
    [update] calls that returned, whatever the sizes of the batches
    (fewer than 2^63 calls). *)
Theorem LanguageCrossEntropyLoss_counts_calls
    (m : gmap loc (pyobj F)) (bs : list (loc * loc)) :
  Z.of_nat (length bs) < 2 ^ 63 ->
  LanguageCrossEntropyLoss.total_batches
    (self (run_updates LanguageCrossEntropyLoss.update bs
             (World LanguageCrossEntropyLoss.__init__ m)))
  = count (fun b => is_ok (outcome (LanguageCrossEntropyLoss.update b.1 b.2)
                             (World LanguageCrossEntropyLoss.__init__ m)))
      bs.
Proof.
  intros Hlen. unfold LanguageCrossEntropyLoss.__init__.
  rewrite LanguageCrossEntropyLoss_run_counts by lia. lia.
Qed.
End LanguageLoss.

(** ** CrossEntropyLoss with a nonzero ignore_index *)

Section CrossEntropyAverage.
Context {F : Type} `{FloatOps F} `{Externals F}.

Lemma length_rows {A} k n (l : list A) : length (rows k n l) = k.
Proof. revert l. induction k as [|k IH]; intros l; simpl; [done|by rewrite IH]. Qed.

Lemma kept_targets_kept_losses i (rs : list (list F)) (ts : list Z) :
  length rs = length ts ->
  torch_sum (ne_mask (longs (F:=F) (Tensor [length ts] ts)) i)
  = Z.of_nat (length (kept_losses i rs ts)).
Proof.
  unfold torch_sum, ne_mask, longs. simpl. rewrite map_map.
  revert ts. induction rs as [|r rs IH]; intros [|t ts]; simpl; try done.
  intros [= Hlen]. rewrite count_true_cons, IH by done.
  destruct (t =? i); simpl; lia.
Qed.

(** X6. With a nonzero [ignore_index], a [CrossEntropyLoss.update] that
    returns has added to [total_batches] exactly the number of per-example
    losses that it has added to [sum_loss]: the rows whose target is the
    ignored index count in neither, so [compute] averages over the
    examples that contribute. *)
Theorem CrossEntropyLoss_denominator_counts_summands
    (m : gmap loc (pyobj F)) (output target : loc) (V i : Z)
    (sl : F) (tb : Z) (r : gmap string reduce_fx)
    (x : tensor F) (o' : pyobj F) (tg : tensor Z) :
  i <> 0 ->
  m !! output = Some (PFloat x) ->
  CrossEntropyLoss.view_vocab V (PFloat x) = Ok o' ->
  m !! target = Some (PLong tg) ->
  let lm := CrossEntropyLoss.LossModule (Some i) "sum" in
  let w := World (CrossEntropyLoss.Build V (Some i) lm sl tb r) m in
  outcome (CrossEntropyLoss.update output target) w = Ok tt ->
  let ks := kept_losses i
              (rows (length (data x) / Z.to_nat V) (Z.to_nat V) (data x))
              (data tg) in
  exec (CrossEntropyLoss.update output target) w =
  World (CrossEntropyLoss.Build V (Some i) lm
           (fadd sl (fold_left fadd ks fzero))
           (add64 tb (Z.of_nat (length ks))) r) m.
Proof.
  intros Hi Hx Hview Ht lm w Hok ks.
  pose proof (CrossEntropyLoss_update_float m output target V (Some i) sl tb r
                x o' tg Hx Hview Ht) as E.
  cbv zeta in E. fold lm w in E.
  unfold outcome, exec in *. rewrite E in Hok |- *. clear E.
  unfold CrossEntropyLoss.call_loss_fn, lm in Hok |- *.
  cbn [CrossEntropyLoss.lm_ignore_index] in Hok |- *.
  unfold cross_entropy_sum in Hok |- *.
  destruct (in_int64 i) eqn:Hin; [|discriminate].
  cbn [shape data view_flat] in Hok |- *.
  destruct (length (data x) / Z.to_nat V =? length (data tg))%nat eqn:HN;
    [|discriminate].
  apply Nat.eqb_eq in HN.
  destruct (ce_rows i (Z.to_nat V) _ (data tg) fzero) as [l|e] eqn:Hl;
    [|discriminate].
  apply ce_rows_sum in Hl. fold ks in Hl. subst l.
  cbn [CrossEntropyLoss.truthy_index].
  rewrite (proj2 (Z.eqb_neq i 0) Hi). cbn [negb].
  rewrite (masked_count_in_range _ _ Hin). cbn [snd]. unfold view_flat, id.
  rewrite (kept_targets_kept_losses i
             (rows (length (data x) / Z.to_nat V) (Z.to_nat V) (data x))
             (data tg)) by (by rewrite length_rows).
  reflexivity.
Qed.
End CrossEntropyAverage.

(** ** The lists of BinaryF1Score *)

Section BinaryF1ScoreLists.
Context {F : Type} `{FloatOps F} `{Externals F}.

(** X7. After any run from a fresh [BinaryF1Score], [predictions] holds the
    outputs and [labels] the targets of the calls, in call order: the two
    lists have the length of the run and stay aligned entry by entry. *)
Theorem BinaryF1Score_lists_record_calls
    (m : gmap loc (pyobj F)) (bs : list (loc * loc)) :
  let s := self (run_updates BinaryF1Score.update bs
                   (World BinaryF1Score.__init__ m)) in
  BinaryF1Score.predictions s = map fst bs /\
  BinaryF1Score.labels s = map snd bs /\
  length (BinaryF1Score.predictions s) = length bs /\
  length (BinaryF1Score.labels s) = length bs /\
  forall k o t,
    BinaryF1Score.predictions s !! k = Some o ->
    BinaryF1Score.labels s !! k = Some t ->
    bs !! k = Some (o, t).
Proof.
  intros s. subst s. unfold BinaryF1Score.__init__.
  rewrite BinaryF1Score_run. simpl.
  repeat split; try (by rewrite length_map).
  intros k o t Ho Ht.
  rewrite list_lookup_fmap in Ho, Ht.
  destruct (bs !! k) as [[o' t']|]; simpl in *; by simplify_eq.
Qed.

Lemma deref_all_agree (s : BinaryF1Score.t) (m m' : gmap loc (pyobj F)) ls :
  (forall l, l ∈ ls -> m !! l = m' !! l) ->
  outcome (BinaryF1Score.deref_all ls) (World s m)
  = outcome (BinaryF1Score.deref_all ls) (World s m').
Proof.
  induction ls as [|l ls IH]; intros Hagree; [reflexivity|].
  assert (m !! l = m' !! l) as Hl by (apply Hagree; left).
  assert (outcome (BinaryF1Score.deref_all ls) (World s m)
          = outcome (BinaryF1Score.deref_all ls) (World s m')) as IH'
    by (apply IH; intros; apply Hagree; by right).
  pose proof (deref_all_pure (F:=F) ls (World s m)) as P.
  pose proof (deref_all_pure (F:=F) ls (World s m')) as P'.
  unfold outcome, exec in *. simpl. unfold bind, deref. simpl.
  rewrite <- Hl. destruct (m !! l) as [o|]; [|done]. simpl.
  destruct (BinaryF1Score.deref_all ls (World s m)) as [r1 w1].
  destruct (BinaryF1Score.deref_all ls (World s m')) as [r2 w2].
  simpl in *. subst. by destruct r2.
Qed.

Lemma BinaryF1Score_compute_outcome (s : BinaryF1Score.t) (m : gmap loc (pyobj F)) :
  outcome BinaryF1Score.compute (World s m) =
  result_bind (outcome (BinaryF1Score.deref_all (BinaryF1Score.predictions s))
                 (World s m)) (fun pobjs =>
  result_bind (argmax_dim1 pobjs) (fun p =>
  result_bind (outcome (BinaryF1Score.deref_all (BinaryF1Score.labels s))
                 (World s m)) (fun lobjs =>
  result_bind (labels_cpu lobjs) (fun lb => f1_score p lb)))).
Proof.
  pose proof (deref_all_pure (F:=F) (BinaryF1Score.predictions s) (World s m)) as P.
  pose proof (deref_all_pure (F:=F) (BinaryF1Score.labels s) (World s m)) as L.
  unfold outcome, exec, BinaryF1Score.compute, bind, getattr, lift in *. simpl.
  destruct (BinaryF1Score.deref_all (BinaryF1Score.predictions s) (World s m))
    as [[pobjs|e] w1]; simpl in *; subst; [|done].
  destruct (argmax_dim1 pobjs) as [p|e]; simpl; [|done].
  destruct (BinaryF1Score.deref_all (BinaryF1Score.labels s) (World s m))
    as [[lobjs|e] w2]; simpl in *; subst; [|done].
  by destruct (labels_cpu lobjs).
Qed.

(** X8. [BinaryF1Score] keeps references, and [compute] reads through them
    when it is called: its outcome depends on the store only through the
    objects that [predictions] and [labels] refer to at that moment; no
    other object of the store matters. *)
Theorem BinaryF1Score_compute_reads_referenced_objects
    (s : BinaryF1Score.t) (m m' : gmap loc (pyobj F)) :
  (forall l, l ∈ BinaryF1Score.predictions s ++ BinaryF1Score.labels s ->
             m !! l = m' !! l) ->
  outcome BinaryF1Score.compute (World s m)
  = outcome BinaryF1Score.compute (World s m').
Proof.
  intros Hagree. rewrite !BinaryF1Score_compute_outcome.
  rewrite (deref_all_agree s m m' (BinaryF1Score.predictions s))
    by (intros l Hl; apply Hagree, elem_of_app; by left).
  rewrite (deref_all_agree s m m' (BinaryF1Score.labels s))
    by (intros l Hl; apply Hagree, elem_of_app; by right).
  reflexivity.
Qed.
End BinaryF1ScoreLists.

(** ** The warning format of the profiler script *)

Lemma count_char_app c s1 s2 :
  count_char c (s1 +:+ s2) = (count_char c s1 + count_char c s2)%nat.
Proof. induction s1 as [|c' s1 IH]; simpl; [done|]. rewrite IH. lia. Qed.

Lemma string_app_assoc (s1 s2 s3 : string) :
  (s1 +:+ s2) +:+ s3 = s1 +:+ (s2 +:+ s3).
Proof.
  induction s1 as [|c s1 IH]; [done|].
  change ((String c s1 +:+ s2) +:+ s3) with (String c ((s1 +:+ s2) +:+ s3)).
  change (String c s1 +:+ s2 +:+ s3) with (String c (s1 +:+ s2 +:+ s3)).
  by rewrite IH.
Qed.

Lemma pretty_N_char_not_newline x : Ascii.eqb "010" (pretty_N_char x) = false.
Proof.
  unfold pretty_N_char. by repeat case_match.
Qed.

Lemma pretty_N_go_newlines x s :
  count_char "010" (pretty_N_go x s) = count_char "010" s.
Proof.
  revert s. induction (N.lt_wf_0 x) as [x _ IH]; intros s.
  destruct (decide (x = 0)%N) as [->|Hx]; [by rewrite pretty_N_go_0|].
  rewrite pretty_N_go_step by lia.
  rewrite IH by (apply N.div_lt; lia).
  cbn [count_char]. by rewrite pretty_N_char_not_newline.
Qed.

Lemma pretty_Z_newlines (z : Z) : count_char "010" (pretty z) = 0%nat.
Proof.
  assert (forall p : positive, count_char "010" (pretty p) = 0%nat) as Hp.
  { intros p. unfold pretty, pretty_positive, pretty, pretty_N.
    destruct (decide (N.pos p = 0)%N); [done|]. by rewrite pretty_N_go_newlines. }
  destruct z as [|p|p]; unfold pretty, pretty_Z; [done|apply Hp|].
  rewrite count_char_app, Hp. done.
Qed.

(** X11. The formatted warning is one line: when the message, the name of
    the category and the file name contain no newline, the result contains
    exactly one, and it is its last character. *)
Theorem warning_on_one_line_single_line
    (message category_name filename : string) (lineno : Z)
    (file line : option string) :
  count_char "010" message = 0%nat ->
  count_char "010" category_name = 0%nat ->
  count_char "010" filename = 0%nat ->
  let s := warning_on_one_line message category_name filename lineno file line in
  count_char "010" s = 1%nat /\
  exists body, s = body +:+ newline /\ count_char "010" body = 0%nat.
Proof.
  intros Hm Hc Hf s. subst s. unfold warning_on_one_line. split.
  - rewrite !count_char_app, Hm, Hc, Hf, pretty_Z_newlines. reflexivity.
  - exists (category_name +:+ ": " +:+ message +:+ " (source: " +:+ filename
            +:+ ":" +:+ pretty lineno +:+ ")").
    split.
    + by rewrite !string_app_assoc.
    + rewrite !count_char_app, Hm, Hc, Hf, pretty_Z_newlines. reflexivity.
Qed.

(** ** MaskedAccuracy at the extremes *)

Section MaskedAccuracyExtremes.
Context {F : Type} `{FloatOps F}.

Lemma count_kept_all_ignored ign (ts : list Z) :
  Forall (fun t => t = ign) ts ->
  count (kept (F:=F) ign) (map IntV ts) = 0.
Proof.
  induction 1 as [|t ts -> _ IH]; [done|].
  simpl map. rewrite count_cons, IH. unfold kept. simpl.
  by rewrite Z.eqb_refl.
Qed.


(** X12. A batch in which every target is the ignored index (an int64
    value) is accepted and counts for nothing: [correct] and [total] stay
    as they are, so a metric that has only seen such batches is as
    undefined as a fresh one. *)
Theorem MaskedAccuracy_all_ignored_batch
    (s : MaskedAccuracy.t) (m : gmap loc (pyobj F)) (preds target : loc)
    (p : pyobj F) (pa tg : tensor Z) (ign : Z) :
  m !! preds = Some p -> MaskedAccuracy.argmax_obj p = Ok pa ->
  m !! target = Some (PLong tg) -> shape pa = shape tg ->
  MaskedAccuracy.ignore_index s = Some ign -> - 2 ^ 63 <= ign < 2 ^ 63 ->
  Forall (fun t => t = ign) (data tg) ->
  wrap64 (MaskedAccuracy.correct s) = MaskedAccuracy.correct s ->
  wrap64 (MaskedAccuracy.total s) = MaskedAccuracy.total s ->
  MaskedAccuracy.update preds target (World s m) = (Ok tt, World s m).
Proof.
  intros Hp Ha Ht Hs Hign Hrange Hall Hc Hn.
  pose proof (count_kept_all_ignored _ _ Hall) as Hk.
  pose proof (hits_le_kept ign (data pa) (map IntV (data tg))) as Hle.
  pose proof (count_bounds (hit (F:=F) ign)
                (zip (data pa) (map IntV (data tg)))) as Hb.
  destruct s as [i c n r]. cbn in Hign, Hc, Hn. subst i.
  rewrite (MaskedAccuracy_update_int ign c n r m preds target p (PLong tg)
             pa (longs tg)); try done; [|by apply in_int64_range].
  cbn [longs data]. rewrite Hk in *.
  replace (count (hit ign) (zip (data pa) (map IntV (data tg)))) with 0 by lia.
  by rewrite !add64_0_r.
Qed.

End MaskedAccuracyExtremes.

(** ** The further properties on concrete batches *)

(** X1 on the batch of the specification's example. *)
Lemma MaskedAccuracy_update_counts_witness :
  shape (Tensor [4%nat] [1; 0; 2; 3]) = shape (longs (F:=Qc) Examples.target) /\
  MaskedAccuracy.update 1%nat 2%nat
    (World (MaskedAccuracy.__init__ (Some (-100))) Examples.store)
  = (Ok tt,
     World (MaskedAccuracy.Build (Some (-100)) (add64 0 2) (add64 0 3)
              (MaskedAccuracy.reductions (MaskedAccuracy.__init__ (Some (-100)))))
       Examples.store).
Proof.
  split; [reflexivity|].
  apply (MaskedAccuracy_update_counts (MaskedAccuracy.__init__ (Some (-100)))
           Examples.store 1%nat 2%nat (PFloat Examples.logits)
           (PLong Examples.target) (Tensor [4%nat] [1; 0; 2; 3])
           (longs Examples.target) (-100));
    [reflexivity..|lia].
Defined.

(** X2 on three batches of the concrete store, whose tensors have at most
    sixteen elements. *)
Lemma MaskedAccuracy_correct_le_total_witness :
  let w := run_updates MaskedAccuracy.update
             [(1%nat, 2%nat); (3%nat, 4%nat); (1%nat, 5%nat)]
             (World (MaskedAccuracy.__init__ (Some (-100))) Examples.store) in
  0 <= MaskedAccuracy.correct (self w) <= MaskedAccuracy.total (self w) /\
  MaskedAccuracy.total (self w) <= 3 * 16.
Proof.
  apply (MaskedAccuracy_correct_le_total (-100) Examples.store 16
           [(1%nat, 2%nat); (3%nat, 4%nat); (1%nat, 5%nat)]).
  - apply (bool_decide_unpack
             (map_Forall (fun _ ob => (size_of ob <= 16)%nat) Examples.store)).
    vm_compute. exact I.
  - simpl. lia.
Defined.

(** X3 on a call that fails its shape assertion. *)
Lemma update_raises_before_writing_witness :
  let w := World (MaskedAccuracy.__init__ (Some (-100))) Examples.store in
  outcome (MaskedAccuracy.update 1%nat 5%nat) w = Raise AssertionError /\
  exec (MaskedAccuracy.update 1%nat 5%nat) w = w.
Proof.
  intros w. split; [reflexivity|].
  apply (proj1 (update_raises_before_writing 1%nat 5%nat AssertionError));
    [discriminate|reflexivity].
Defined.

(** X4 on a mapping that only holds ['hidden_states']. *)
Lemma LanguageCrossEntropyLoss_update_missing_keys_witness :
  LanguageCrossEntropyLoss.update 5%nat 4%nat
    (World LanguageCrossEntropyLoss.__init__ MoreExamples.store)
  = (Raise (KeyError "logits"),
     World LanguageCrossEntropyLoss.__init__ MoreExamples.store).
Proof.
  apply (LanguageCrossEntropyLoss_update_missing_keys
           LanguageCrossEntropyLoss.__init__ MoreExamples.store 5%nat 4%nat
           {[ "hidden_states" := MoreExamples.hidden ]});
    reflexivity.
Defined.

(** X5 on a mapping with a ready loss: a target and a reference to nothing
    give the same call. *)
Lemma LanguageCrossEntropyLoss_update_ignores_target_witness :
  LanguageCrossEntropyLoss.update 7%nat 2%nat
    (World LanguageCrossEntropyLoss.__init__ MoreExamples.store)
  = LanguageCrossEntropyLoss.update 7%nat 99%nat
      (World LanguageCrossEntropyLoss.__init__ MoreExamples.store).
Proof.
  apply (LanguageCrossEntropyLoss_update_ignores_target
           (World LanguageCrossEntropyLoss.__init__ MoreExamples.store)
           7%nat 2%nat 99%nat {[ "loss" := Examples.loss2 ]}).
  - reflexivity.
  - exists Examples.loss2. reflexivity.
Defined.

(** X6 on two rows with the targets [[0, 1]] and [ignore_index = 1]: one
    loss is summed and one is counted. *)
Lemma CrossEntropyLoss_denominator_counts_summands_witness :
  let w := World (CrossEntropyLoss.__init__ 2 (Some 1)) Examples.store in
  outcome (CrossEntropyLoss.update 3%nat 4%nat) w = Ok tt /\
  CrossEntropyLoss.total_batches (self (exec (CrossEntropyLoss.update 3%nat 4%nat) w))
  = add64 0 1.
Proof.
  intros w. split; [reflexivity|].
  subst w. unfold CrossEntropyLoss.__init__.
  rewrite (CrossEntropyLoss_denominator_counts_summands Examples.store
             3%nat 4%nat 2 1 fzero 0 _ Examples.scores
             (PFloat Examples.scores) Examples.classes);
    [reflexivity|lia|reflexivity..].
Defined.

(** X8 on two stores that agree on the two recorded references. *)
Lemma BinaryF1Score_compute_reads_referenced_objects_witness :
  let s := BinaryF1Score.Build [3%nat] [4%nat]
             (BinaryF1Score.reductions BinaryF1Score.__init__) in
  outcome (BinaryF1Score.compute (F:=Qc)) (World s Examples.store)
  = outcome BinaryF1Score.compute (World s MoreExamples.store).
Proof.
  intros s.
  apply (BinaryF1Score_compute_reads_referenced_objects s
           Examples.store MoreExamples.store).
  intros l Hl. simpl in Hl.
  apply elem_of_cons in Hl as [->|Hl]; [reflexivity|].
  apply elem_of_cons in Hl as [->|Hl]; [reflexivity|].
  by apply elem_of_nil in Hl.
Defined.

(** X9 on three calls of which the second is refused. *)
Lemma LanguageCrossEntropyLoss_counts_calls_witness :
  LanguageCrossEntropyLoss.total_batches
    (self (run_updates LanguageCrossEntropyLoss.update
             [(7%nat, 4%nat); (8%nat, 4%nat); (3%nat, 4%nat)]
             (World LanguageCrossEntropyLoss.__init__ Examples.store)))
  = 2.
Proof.
  rewrite (LanguageCrossEntropyLoss_counts_calls Examples.store
             [(7%nat, 4%nat); (8%nat, 4%nat); (3%nat, 4%nat)]).
  - reflexivity.
  - simpl. lia.
Defined.

(** X10 on two batches in either order. *)
Lemma MaskedAccuracy_batch_order_witness :
  let w := World (MaskedAccuracy.__init__ (Some (-100))) Examples.store in
  run_updates MaskedAccuracy.update [(1%nat, 2%nat); (3%nat, 4%nat)] w
  = run_updates MaskedAccuracy.update [(3%nat, 4%nat); (1%nat, 2%nat)] w.
Proof.
  intros w.
  apply (MaskedAccuracy_batch_order [(1%nat, 2%nat); (3%nat, 4%nat)]
           [(3%nat, 4%nat); (1%nat, 2%nat)] w).
  apply perm_swap.
Defined.

(** X11 on a deprecation warning raised at line 17 of [train.py]. *)
Lemma warning_on_one_line_witness :
  warning_on_one_line "deprecated" "UserWarning" "train.py" 17 None None
  = "UserWarning: deprecated (source: train.py:17)" +:+ newline /\
  count_char "010"
    (warning_on_one_line "deprecated" "UserWarning" "train.py" 17 None None)
  = 1%nat.
Proof.
  split; [reflexivity|].
  apply (warning_on_one_line_single_line "deprecated" "UserWarning" "train.py"
           17 None None); reflexivity.
Defined.

(** X12 on a target that is [-100] everywhere. *)
Lemma MaskedAccuracy_all_ignored_batch_witness :
  MaskedAccuracy.update 1%nat 8%nat
    (World (MaskedAccuracy.__init__ (Some (-100))) MoreExamples.store)
  = (Ok tt, World (MaskedAccuracy.__init__ (Some (-100))) MoreExamples.store).
Proof.
  apply (MaskedAccuracy_all_ignored_batch (MaskedAccuracy.__init__ (Some (-100)))
           MoreExamples.store 1%nat 8%nat (PFloat Examples.logits)
           (Tensor [4%nat] [1; 0; 2; 3]) MoreExamples.all_ignored (-100));
    try reflexivity; [lia|].
  repeat constructor.
Defined.


(** X15 on the batch of the specification's example, with
    [ignore_index = None]: the two agreeing positions are counted and the
    call fails. *)
Lemma MaskedAccuracy_update_without_ignore_index_witness :
  MaskedAccuracy.update 1%nat 2%nat
    (World (MaskedAccuracy.__init__ None) Examples.store)
  = (Raise AttributeError,
     World (MaskedAccuracy.Build None (add64 0 2) 0
              (MaskedAccuracy.reductions (MaskedAccuracy.__init__ None)))
       Examples.store).
Proof.
  apply (MaskedAccuracy_update_without_ignore_index
           (MaskedAccuracy.__init__ None)
           Examples.store 1%nat 2%nat (PFloat Examples.logits)
           (PLong Examples.target) (Tensor [4%nat] [1; 0; 2; 3])
           (longs Examples.target)); reflexivity.
Defined.


(** C4 on the arithmetic with NaN: [compute] on a fresh [MaskedAccuracy]
    and on a fresh [Perplexity] gives NaN. *)
Lemma compute_before_update_undefined_witness :
  outcome MaskedAccuracy.compute
    (World (MaskedAccuracy.__init__ (Some (-100))) (∅ : gmap loc (pyobj Extended.t)))
  = Ok Extended.NaN /\
  outcome Perplexity.compute
    (World Perplexity.__init__ (∅ : gmap loc (pyobj Extended.t)))
  = Ok Extended.NaN.
Proof.
  destruct (compute_before_update_undefined (F:=Extended.t) ∅)
    as (HM & _ & _ & HP); [reflexivity|reflexivity|by intros []|].
  split.
  - destruct (HM (Some (-100))) as (v & E & Hv). unfold outcome. rewrite E.
    simpl. by destruct v.
  - destruct HP as (v & E & Hv). unfold outcome. rewrite E.
    simpl. by destruct v.
Defined.
